(** * nlpy: the abstract nonlinear-programming model ([nlpy/model/nlp.py])

    A shallow embedding of class [NLPModel]: the constructor with its default
    values and its two classification loops, [ResetCounters],
    [OptimalityResiduals] and [AtOptimality], followed by the properties of
    the model that the specification states.

    Conventions of the embedding
    - a Python [float] is a binary64 value: Rocq's primitive [float];
    - a Python [int] is a [Z]; [len] returns a [Z];
    - a vector (a numpy array of doubles, or a list of floats) is a
      [list float], indexed from 0, a negative index counting from the end,
      an index out of range raising [IndexError];
    - [**kwargs] is a dictionary from keyword to vector: [gmap string _];
    - a computation that can raise is a [result]; statements are sequenced
      with the monadic bind of [result]; the exceptions are those the
      operations raise on their arguments ([IndexError], [ValueError],
      [TypeError]); exhaustion of memory is not modelled;
    - the source is written for Python 2; the one operation it uses whose
      meaning changed in Python 3, ordering [None] against a number, takes
      the language version as a parameter;
    - an attribute of the instance is a field of the record [NLPModel.t];
      a method that assigns attributes returns the updated record. *)

From Stdlib Require Import ZArith Floats Lia.
From stdpp Require Import base list strings gmap sorting.

Local Open Scope Z_scope.

(** ** Exceptions and results *)

Inductive PyError : Set := IndexError | ValueError | TypeError.

Inductive result (A : Type) : Type :=
  | Ok (a : A)
  | Raise (e : PyError).
Arguments Ok {A} a.
Arguments Raise {A} e.

#[export] Instance result_ret : MRet result := @Ok.
#[export] Instance result_bind : MBind result := fun A B f r =>
  match r with
  | Ok a => f a
  | Raise e => Raise e
  end.

#[export] Instance result_fmap : FMap result := fun A B f r =>
  match r with
  | Ok a => Ok (f a)
  | Raise e => Raise e
  end.

(** The two language versions differ in one operation used by the class:
    ordering [None] against a number. *)
Inductive PyVersion : Set := Python2 | Python3.

(** ** The Python operations that the class uses *)

Module Py.

(** [a > b] on floats is [b < a]. *)
Definition gt (a b : float) : bool := PrimFloat.ltb b a.
Definition lt (a b : float) : bool := PrimFloat.ltb a b.
Definition le (a b : float) : bool := PrimFloat.leb a b.
Definition eq (a b : float) : bool := PrimFloat.eqb a b.

(** [len(v)] *)
Definition len {A} (v : list A) : Z := Z.of_nat (length v).

(** [range(k)]: the indices [0, 1, ..., k-1], empty when [k <= 0]. *)
Definition range (k : Z) : list Z := seqZ 0 k.

(** [v[i]] *)
Definition getitem (v : list float) (i : Z) : result float :=
  let j := if i <? 0 then len v + i else i in
  if j <? 0 then Raise IndexError
  else match v !! Z.to_nat j with
       | Some x => Ok x
       | None => Raise IndexError
       end.

(** The largest value of numpy's index type [npy_intp], on a platform where
    it has 64 bits, and the size in bytes of a double. *)
Definition NPY_MAX_INTP : Z := 2 ^ 63 - 1.
Definition itemsize : Z := 8.

(** The tests numpy makes on the dimension [k] of a new array of doubles,
    each failing with [ValueError]: [k] fits the index type ("Maximum allowed
    dimension exceeded"), is not negative ("negative dimensions are not
    allowed"), and the size in bytes fits the index type ("array is too
    big").  The array is then allocated; running out of memory, which every
    allocation of the interpreter can do, is outside this model. *)
Definition numpy_dimension (k : Z) : result nat :=
  if NPY_MAX_INTP <? k then Raise ValueError
  else if k <? 0 then Raise ValueError
  else if NPY_MAX_INTP <? itemsize * k then Raise ValueError
  else Ok (Z.to_nat k).

(** [numpy.zeros(k, 'd')] and [numpy.ones(k, 'd')]. *)
Definition numpy_zeros (k : Z) : result (list float) :=
  len ← numpy_dimension k; Ok (replicate len 0%float).
Definition numpy_ones (k : Z) : result (list float) :=
  len ← numpy_dimension k; Ok (replicate len 1%float).

(** [a * v] for a scalar [a] and an array [v]. *)
Definition scale (a : float) (v : list float) : list float :=
  PrimFloat.mul a <$> v.

(** [math.pow(10.0, -6.0)]: the binary64 value nearest to 10^-6, which is
    also the value of the literal [1e-6]. *)
Definition pow_10_m6 : float := 0x1.0c6f7a0b5ed8dp-20%float.

(** [for i in idx: s = body(s, i)], stopping at the first exception. *)
Fixpoint for_each {S : Type} (body : S → Z → result S) (s : S)
    (idx : list Z) : result S :=
  match idx with
  | [] => Ok s
  | i :: rest => s' ← body s i; for_each body s' rest
  end.

(** [a <= b] where [a] may be [None] and [b] is a float.  Python 2 orders
    [None] below every number; Python 3 raises [TypeError]. *)
Definition le_obj (v : PyVersion) (a : option float) (b : float)
    : result bool :=
  match a with
  | Some x => Ok (le x b)
  | None => match v with
            | Python2 => Ok true
            | Python3 => Raise TypeError
            end
  end.

(** [d[key] if key in d.keys() else dflt], [dflt] evaluated only when the
    key is absent. *)
Definition get_or (kwargs : gmap string (list float)) (key : string)
    (dflt : result (list float)) : result (list float) :=
  match kwargs !! key with
  | Some v => Ok v
  | None => dflt
  end.

End Py.

(** ** The five index lists of one classification loop *)

Record Classes : Type := mkClasses {
  c_range : list Z;
  c_lower : list Z;
  c_upper : list Z;
  c_equal : list Z;
  c_free : list Z
}.

Definition no_classes : Classes := mkClasses [] [] [] [] [].

Definition append_range (i : Z) (c : Classes) : Classes :=
  mkClasses (c_range c ++ [i]) (c_lower c) (c_upper c) (c_equal c) (c_free c).
Definition append_lower (i : Z) (c : Classes) : Classes :=
  mkClasses (c_range c) (c_lower c ++ [i]) (c_upper c) (c_equal c) (c_free c).
Definition append_upper (i : Z) (c : Classes) : Classes :=
  mkClasses (c_range c) (c_lower c) (c_upper c ++ [i]) (c_equal c) (c_free c).
Definition append_equal (i : Z) (c : Classes) : Classes :=
  mkClasses (c_range c) (c_lower c) (c_upper c) (c_equal c ++ [i]) (c_free c).
Definition append_free (i : Z) (c : Classes) : Classes :=
  mkClasses (c_range c) (c_lower c) (c_upper c) (c_equal c) (c_free c ++ [i]).

(** The body of the loops at lines 103-114 and 129-140, for the bound vectors
    [L] and [U]:
<<
    if L[i] > negInfinity and U[i] < Infinity:
        if L[i] == U[i]: equal.append(i)
        else:            range.append(i)
    elif L[i] > negInfinity: lower.append(i)
    elif U[i] < Infinity:    upper.append(i)
    else:                    free.append(i)
>>
    [and] evaluates its right operand only when the left one is true. *)
Definition classify_index (Infinity negInfinity : float) (L U : list float)
    (c : Classes) (i : Z) : result Classes :=
  l ← Py.getitem L i;
  both ← (if Py.gt l negInfinity
          then u ← Py.getitem U i; Ok (Py.lt u Infinity)
          else Ok false);
  if both : bool then
    l ← Py.getitem L i;
    u ← Py.getitem U i;
    if Py.eq l u then Ok (append_equal i c) else Ok (append_range i c)
  else
    l ← Py.getitem L i;
    if Py.gt l negInfinity then Ok (append_lower i c)
    else
      u ← Py.getitem U i;
      if Py.lt u Infinity then Ok (append_upper i c)
      else Ok (append_free i c).

Definition classify (Infinity negInfinity : float) (L U : list float)
    (k : Z) : result Classes :=
  Py.for_each (classify_index Infinity negInfinity L U) no_classes (Py.range k).

(** ** Class [NLPModel] *)

Module NLPModel.

(** The attributes assigned by [__init__], in order of assignment. *)
Record t : Type := mk {
  n : Z;
  m : Z;
  name : string;
  Infinity : float;
  negInfinity : float;
  zero : float;
  one : float;
  x0 : list float;
  pi0 : list float;
  Lvar : list float;
  Uvar : list float;
  Lcon : list float;
  Ucon : list float;
  lin : list Z;
  nln : list Z;
  net : list Z;
  nlin : Z;
  nnln : Z;
  nnet : Z;
  rangeC : list Z;
  lowerC : list Z;
  upperC : list Z;
  equalC : list Z;
  freeC : list Z;
  nlowerC : Z;
  nrangeC : Z;
  nupperC : Z;
  nequalC : Z;
  nfreeC : Z;
  rangeB : list Z;
  lowerB : list Z;
  upperB : list Z;
  fixedB : list Z;
  freeB : list Z;
  nlowerB : Z;
  nrangeB : Z;
  nupperB : Z;
  nfixedB : Z;
  nfreeB : Z;
  nbounds : Z;
  stop_d : float;
  stop_c : float;
  stop_p : float;
  feval : Z;
  geval : Z;
  Heval : Z;
  Hprod : Z;
  ceval : Z;
  Jeval : Z;
  Jprod : Z
}.

(** [__init__(self, n = 0, m = 0, name = 'Generic', **kwargs)] *)
Definition __init__ (n m : Z) (name : string)
    (kwargs : gmap string (list float)) : result t :=
  let Infinity := 1e+20%float in
  let negInfinity := PrimFloat.opp Infinity in
  let zero := 0.0%float in
  let one := 1.0%float in
  x0 ← Py.get_or kwargs "x0" (Py.numpy_zeros n);
  pi0 ← Py.get_or kwargs "pi0" (Py.numpy_zeros m);
  Lvar ← Py.get_or kwargs "Lvar" (Py.scale negInfinity <$> Py.numpy_ones n);
  Uvar ← Py.get_or kwargs "Uvar" (Py.scale Infinity <$> Py.numpy_ones n);
  Lcon ← Py.get_or kwargs "Lcon" (Py.scale negInfinity <$> Py.numpy_ones m);
  Ucon ← Py.get_or kwargs "Ucon" (Py.scale Infinity <$> Py.numpy_ones m);
  let lin : list Z := [] in
  let nln : list Z := Py.range m in
  let net : list Z := [] in
  let nlin := Py.len lin in
  let nnln := Py.len nln in
  let nnet := Py.len net in
  C ← classify Infinity negInfinity Lcon Ucon m;
  let nlowerC := Py.len (c_lower C) in
  let nrangeC := Py.len (c_range C) in
  let nupperC := Py.len (c_upper C) in
  let nequalC := Py.len (c_equal C) in
  let nfreeC := Py.len (c_free C) in
  B ← classify Infinity negInfinity Lvar Uvar n;
  let nlowerB := Py.len (c_lower B) in
  let nrangeB := Py.len (c_range B) in
  let nupperB := Py.len (c_upper B) in
  let nfixedB := Py.len (c_equal B) in
  let nfreeB := Py.len (c_free B) in
  let nbounds := n - nfreeB in
  let stop_d := Py.pow_10_m6 in
  let stop_c := Py.pow_10_m6 in
  let stop_p := Py.pow_10_m6 in
  Ok {| n := n; m := m; name := name;
        Infinity := Infinity; negInfinity := negInfinity;
        zero := zero; one := one;
        x0 := x0; pi0 := pi0;
        Lvar := Lvar; Uvar := Uvar; Lcon := Lcon; Ucon := Ucon;
        lin := lin; nln := nln; net := net;
        nlin := nlin; nnln := nnln; nnet := nnet;
        rangeC := c_range C; lowerC := c_lower C; upperC := c_upper C;
        equalC := c_equal C; freeC := c_free C;
        nlowerC := nlowerC; nrangeC := nrangeC; nupperC := nupperC;
        nequalC := nequalC; nfreeC := nfreeC;
        rangeB := c_range B; lowerB := c_lower B; upperB := c_upper B;
        fixedB := c_equal B; freeB := c_free B;
        nlowerB := nlowerB; nrangeB := nrangeB; nupperB := nupperB;
        nfixedB := nfixedB; nfreeB := nfreeB;
        nbounds := nbounds;
        stop_d := stop_d; stop_c := stop_c; stop_p := stop_p;
        feval := 0; geval := 0; Heval := 0; Hprod := 0;
        ceval := 0; Jeval := 0; Jprod := 0 |}.

(** Assignment to the counters: [self] with the seven counters replaced. *)
Definition with_counters (self : t) (f g H Hp c J Jp : Z) : t :=
  {| n := n self; m := m self; name := name self;
     Infinity := Infinity self; negInfinity := negInfinity self;
     zero := zero self; one := one self;
     x0 := x0 self; pi0 := pi0 self;
     Lvar := Lvar self; Uvar := Uvar self;
     Lcon := Lcon self; Ucon := Ucon self;
     lin := lin self; nln := nln self; net := net self;
     nlin := nlin self; nnln := nnln self; nnet := nnet self;
     rangeC := rangeC self; lowerC := lowerC self; upperC := upperC self;
     equalC := equalC self; freeC := freeC self;
     nlowerC := nlowerC self; nrangeC := nrangeC self;
     nupperC := nupperC self; nequalC := nequalC self;
     nfreeC := nfreeC self;
     rangeB := rangeB self; lowerB := lowerB self; upperB := upperB self;
     fixedB := fixedB self; freeB := freeB self;
     nlowerB := nlowerB self; nrangeB := nrangeB self;
     nupperB := nupperB self; nfixedB := nfixedB self;
     nfreeB := nfreeB self;
     nbounds := nbounds self;
     stop_d := stop_d self; stop_c := stop_c self; stop_p := stop_p self;
     feval := f; geval := g; Heval := H; Hprod := Hp;
     ceval := c; Jeval := J; Jprod := Jp |}.

Definition set_feval (v : Z) (self : t) : t :=
  with_counters self v (geval self) (Heval self) (Hprod self)
    (ceval self) (Jeval self) (Jprod self).
Definition set_geval (v : Z) (self : t) : t :=
  with_counters self (feval self) v (Heval self) (Hprod self)
    (ceval self) (Jeval self) (Jprod self).
Definition set_Heval (v : Z) (self : t) : t :=
  with_counters self (feval self) (geval self) v (Hprod self)
    (ceval self) (Jeval self) (Jprod self).
Definition set_Hprod (v : Z) (self : t) : t :=
  with_counters self (feval self) (geval self) (Heval self) v
    (ceval self) (Jeval self) (Jprod self).
Definition set_ceval (v : Z) (self : t) : t :=
  with_counters self (feval self) (geval self) (Heval self) (Hprod self)
    v (Jeval self) (Jprod self).
Definition set_Jeval (v : Z) (self : t) : t :=
  with_counters self (feval self) (geval self) (Heval self) (Hprod self)
    (ceval self) v (Jprod self).
Definition set_Jprod (v : Z) (self : t) : t :=
  with_counters self (feval self) (geval self) (Heval self) (Hprod self)
    (ceval self) (Jeval self) v.

(** [ResetCounters(self)]: seven assignments, then [return None].  The
    value returned is the unit; the second component is [self] afterwards. *)
Definition ResetCounters (self : t) : result (unit * t) :=
  let self := set_feval 0 self in
  let self := set_geval 0 self in
  let self := set_Heval 0 self in
  let self := set_Hprod 0 self in
  let self := set_ceval 0 self in
  let self := set_Jeval 0 self in
  let self := set_Jprod 0 self in
  Ok (tt, self).

(** A residual is a float, or [None]. *)
Definition residuals : Type := option float * option float * option float.

(** The method that subclasses override. *)
Class Methods : Type := {
  OptimalityResiduals : t → list float → list float → residuals
}.

(** The base class: [return (None, None, None)]. *)
Definition Base : Methods :=
  {| OptimalityResiduals := fun _ _ _ => (None, None, None) |}.

(** [AtOptimality(self, x, z)]:
<<
    (d, c, p) = self.OptimalityResiduals(x, z)
    if d <= self.stop_d and c <= self.stop_c and p <= self.stop_p:
        return True
    return False
>> *)
Definition AtOptimality (cls : Methods) (v : PyVersion) (self : t)
    (x z : list float) : result bool :=
  let '(d, c, p) := @OptimalityResiduals cls self x z in
  b1 ← Py.le_obj v d (stop_d self);
  b ← (if b1 : bool then
         b2 ← Py.le_obj v c (stop_c self);
         if b2 : bool then Py.le_obj v p (stop_p self) else Ok false
       else Ok false);
  if b : bool then Ok true else Ok false.

End NLPModel.

(** ** Vocabulary of the specification *)

(** The five categories of a pair of bounds. *)
Inductive BoundKind : Set := Equal | Range | Lower | Upper | Free.

#[export] Instance BoundKind_eq_dec : EqDecision BoundKind.
Proof. solve_decision. Defined.

(** The classification rule as the specification words it: a lower bound is
    finite when strictly above [-1e20], an upper bound when strictly below
    [1e20]; two finite bounds are [Equal] when they compare equal and [Range]
    otherwise. *)
Definition bound_rule (lower upper : float) : BoundKind :=
  let lower_finite := Py.gt lower (-1e+20)%float in
  let upper_finite := Py.lt upper 1e+20%float in
  if lower_finite && upper_finite then
    if Py.eq lower upper then Equal else Range
  else if lower_finite then Lower
  else if upper_finite then Upper
  else Free.

(** The category of index [i] under the bound vectors [L] and [U], when both
    have an entry at [i]. *)
Definition kind_at (L U : list float) (i : Z) : option BoundKind :=
  l ← L !! Z.to_nat i; u ← U !! Z.to_nat i; Some (bound_rule l u).

Definition select (k : BoundKind) (c : Classes) : list Z :=
  match k with
  | Equal => c_equal c
  | Range => c_range c
  | Lower => c_lower c
  | Upper => c_upper c
  | Free => c_free c
  end.

Definition append_to (k : BoundKind) (i : Z) (c : Classes) : Classes :=
  match k with
  | Equal => append_equal i c
  | Range => append_range i c
  | Lower => append_lower i c
  | Upper => append_upper i c
  | Free => append_free i c
  end.

(** The index lists of a model, by category. *)
Definition constraints_of (k : BoundKind) (self : NLPModel.t) : list Z :=
  match k with
  | Equal => NLPModel.equalC self
  | Range => NLPModel.rangeC self
  | Lower => NLPModel.lowerC self
  | Upper => NLPModel.upperC self
  | Free => NLPModel.freeC self
  end.

Definition variables_of (k : BoundKind) (self : NLPModel.t) : list Z :=
  match k with
  | Equal => NLPModel.fixedB self
  | Range => NLPModel.rangeB self
  | Lower => NLPModel.lowerB self
  | Upper => NLPModel.upperB self
  | Free => NLPModel.freeB self
  end.



(** The dimensions that pass the tests of [Py.numpy_dimension]. *)
Definition numpy_accepts (k : Z) : Prop :=
  0 ≤ k ∧ Py.itemsize * k ≤ Py.NPY_MAX_INTP.

(** [lists] partition the indices [0 .. k-1]: every index of the range is in
    the list of exactly one category, and the lists hold nothing else. *)
Definition partitions (k : Z) (lists : BoundKind → list Z) : Prop :=
  (∀ i, 0 ≤ i < k → ∃ c, ∀ c', i ∈ lists c' ↔ c' = c) ∧
  (∀ c i, i ∈ lists c → 0 ≤ i < k).

(** Strictly ascending. *)
Definition ascending (l : list Z) : Prop := StronglySorted Z.lt l.

(** What a successful run of the loop over [range(k)] computes. *)
Record classified (L U : list float) (k : Z) (lists : BoundKind → list Z)
    : Prop := {
  cl_defined : ∀ i, 0 ≤ i < k → is_Some (kind_at L U i);
  cl_lists : ∀ c, lists c = filter (λ i, kind_at L U i = Some c) (Py.range k)
}.

(** The state in which [__init__ n m _ _] leaves the instance, as far as the
    classification, the counts and the tolerances are concerned. *)
Record constructed (n m : Z) (self : NLPModel.t) : Prop := {
  init_n : NLPModel.n self = n;
  init_m : NLPModel.m self = m;
  init_C : classified (NLPModel.Lcon self) (NLPModel.Ucon self) m
             (λ c, constraints_of c self);
  init_B : classified (NLPModel.Lvar self) (NLPModel.Uvar self) n
             (λ c, variables_of c self);
  init_nequalC : NLPModel.nequalC self = Py.len (NLPModel.equalC self);
  init_nrangeC : NLPModel.nrangeC self = Py.len (NLPModel.rangeC self);
  init_nlowerC : NLPModel.nlowerC self = Py.len (NLPModel.lowerC self);
  init_nupperC : NLPModel.nupperC self = Py.len (NLPModel.upperC self);
  init_nfreeC : NLPModel.nfreeC self = Py.len (NLPModel.freeC self);
  init_nfixedB : NLPModel.nfixedB self = Py.len (NLPModel.fixedB self);
  init_nrangeB : NLPModel.nrangeB self = Py.len (NLPModel.rangeB self);
  init_nlowerB : NLPModel.nlowerB self = Py.len (NLPModel.lowerB self);
  init_nupperB : NLPModel.nupperB self = Py.len (NLPModel.upperB self);
  init_nfreeB : NLPModel.nfreeB self = Py.len (NLPModel.freeB self);
  init_nbounds : NLPModel.nbounds self = n - NLPModel.nfreeB self;
  init_stop_d : NLPModel.stop_d self = Py.pow_10_m6;
  init_stop_c : NLPModel.stop_c self = Py.pow_10_m6;
  init_stop_p : NLPModel.stop_p self = Py.pow_10_m6
}.

(** ** Sample inputs

    Six constraints and two variables: constraint 0 has equal finite bounds,
    1 two distinct finite bounds, 2 only an upper bound, 3 both bounds at
    [1e20], 4 both bounds at [-1e20], and 5 finite bounds in inverted order;
    variable 0 has both bounds at [1e20] and variable 1 none. *)
Definition demo_kwargs : gmap string (list float) :=
  <["Lcon" := [5.0; 0.0; -1e+20; 1e+20; -1e+20; 7.0]%float]>
  (<["Ucon" := [5.0; 10.0; 10.0; 1e+20; -1e+20; 1.0]%float]>
  (<["Lvar" := [1e+20; -1e+20]%float]>
  (<["Uvar" := [1e+20; 1e+20]%float]> ∅))).


(** A subclass whose residuals are defined: the first sits on its tolerance,
    the other two below theirs. *)
Definition demo_methods : NLPModel.Methods :=
  {| NLPModel.OptimalityResiduals := fun _ _ _ =>
       (Some Py.pow_10_m6, Some 0%float, Some 0x1p-21%float) |}.

(** ** Vocabulary and sample inputs of the further properties *)

(** A statement [P] about one classification loop, made of the loop over the
    constraints and of the loop over the variables of a model. *)
Definition both_loops (n m : Z) (self : NLPModel.t)
    (P : list float → list float → Z → (BoundKind → list Z) → Prop) : Prop :=
  P (NLPModel.Lcon self) (NLPModel.Ucon self) m (λ c, constraints_of c self) ∧
  P (NLPModel.Lvar self) (NLPModel.Uvar self) n (λ c, variables_of c self).


(** Three constraints and one variable with bounds that are not numbers or
    lie beyond the sentinels: constraint 0 has a NaN lower bound, 1 the true
    infinities, 2 two NaN; the variable has the lower bound [-2e20]. *)
Definition odd_kwargs : gmap string (list float) :=
  <["Lcon" := [nan; neg_infinity; nan]%float]>
  (<["Ucon" := [3.0; infinity; nan]%float]>
  (<["Lvar" := [-2e+20]%float]>
  (<["Uvar" := [0.0]%float]> ∅))).


(** No constraint and no variable, with vectors that are longer than that. *)
Definition lengths_kwargs : gmap string (list float) :=
  <["x0" := [1.0; 2.0; 3.0]%float]> (<["Lcon" := [4.0; 5.0]%float]> ∅).

(** Two constraints with lower bounds only, and one variable without bounds. *)
Definition lower_kwargs : gmap string (list float) :=
  <["Lcon" := [0.0; -1e+20]%float]> ∅.

(** [demo_kwargs] with one more entry on each constraint bound vector. *)
Definition longer_kwargs : gmap string (list float) :=
  <["Lcon" := [5.0; 0.0; -1e+20; 1e+20; -1e+20; 7.0; 8.0]%float]>
  (<["Ucon" := [5.0; 10.0; 10.0; 1e+20; -1e+20; 1.0; 9.0]%float]>
  (<["Lvar" := [1e+20; -1e+20]%float]>
  (<["Uvar" := [1e+20; 1e+20]%float]> ∅))).

(** A subclass without a complementarity residual: the first residual is
    within its tolerance, the second is [None]. *)
Definition partial_methods : NLPModel.Methods :=
  {| NLPModel.OptimalityResiduals := fun _ _ _ =>
       (Some 0%float, None, Some 0%float) |}.

(** A subclass whose first residual is over its tolerance and whose other
    residuals are [None]. *)
Definition failing_methods : NLPModel.Methods :=
  {| NLPModel.OptimalityResiduals := fun _ _ _ =>
       (Some 1%float, None, None) |}.

(** A subclass whose primal residual is NaN. *)
Definition nan_methods : NLPModel.Methods :=
  {| NLPModel.OptimalityResiduals := fun _ _ _ =>
       (Some 0%float, Some 0%float, Some nan) |}.

(** * Properties *)

(** ** Comparison of binary64 values *)

Lemma compare_cont_flip (p q : positive) (c : comparison) :
  CompOpp (PosDef.Pos.compare_cont c p q)
  = PosDef.Pos.compare_cont (CompOpp c) q p.
Proof. exact (Pos.compare_cont_antisym p q c). Qed.

Lemma compare_cont_Eq (p q : positive) :
  PosDef.Pos.compare_cont Eq p q = Eq → p = q.
Proof. exact (Pos.compare_eq p q). Qed.

Lemma SFcompare_Lt_flip (a b : spec_float) :
  SFcompare a b = Some Lt → SFcompare b a = Some Gt.
Proof.
  destruct a as [sa|sa| |sa ma ea], b as [sb|sb| |sb mb eb]; simpl;
    try discriminate; try (destruct sa; discriminate);
    try (destruct sa, sb; (discriminate || reflexivity)).
  all: try (destruct sa; (discriminate || reflexivity)).
  all: try (destruct sb; (discriminate || reflexivity)).
  destruct sa, sb; try discriminate; try reflexivity.
  - rewrite (Z.compare_antisym ea eb).
    destruct (ea ?= eb) eqn:E; simpl; try discriminate; try reflexivity.
    rewrite (compare_cont_flip mb ma Eq). simpl.
    destruct (PosDef.Pos.compare_cont Eq ma mb); simpl;
      try discriminate; reflexivity.
  - rewrite (Z.compare_antisym ea eb).
    destruct (ea ?= eb) eqn:E; simpl; try discriminate; try reflexivity.
    pose proof (compare_cont_flip ma mb Eq) as HH. simpl in HH. rewrite <- HH.
    destruct (PosDef.Pos.compare_cont Eq ma mb); simpl;
      try discriminate; reflexivity.
Qed.

(** [a < b] excludes [b <= a]. *)
Lemma float_lt_not_ge (a b : float) : Py.lt a b = true → Py.le b a = false.
Proof.
  unfold Py.lt, Py.le. rewrite ltb_spec, leb_spec. unfold SFltb, SFleb.
  destruct (SFcompare (Prim2SF a) (Prim2SF b)) as [[]|] eqn:E; try discriminate.
  intros _. now rewrite (SFcompare_Lt_flip _ _ E).
Qed.

Lemma SFcompare_Eq_finite (a : spec_float) s mant e :
  SFcompare a (S754_finite s mant e) = Some Eq → a = S754_finite s mant e.
Proof.
  destruct a as [sa|sa| |sa ma ea]; simpl; try discriminate;
    try (destruct sa; discriminate); try (destruct s; discriminate).
  destruct sa, s; try discriminate.
  - destruct (ea ?= e) eqn:E; try discriminate.
    apply Z.compare_eq in E. subst.
    destruct (PosDef.Pos.compare_cont Eq ma mant) eqn:E'; try discriminate.
    apply compare_cont_Eq in E'. now subst.
  - destruct (ea ?= e) eqn:E; try discriminate.
    apply Z.compare_eq in E. subst.
    destruct (PosDef.Pos.compare_cont Eq ma mant) eqn:E'; try discriminate.
    apply compare_cont_Eq in E'. now subst.
Qed.

(** [x == y] against a finite non-zero [y] holds only for [y] itself. *)
Lemma float_eq_finite (x y : float) s mant e :
  Prim2SF y = S754_finite s mant e → Py.eq x y = true → x = y.
Proof.
  intros Hy. unfold Py.eq. rewrite FloatAxioms.eqb_spec. unfold SFeqb.
  rewrite Hy.
  destruct (SFcompare (Prim2SF x) (S754_finite s mant e)) as [[]|] eqn:E;
    try discriminate.
  intros _. apply SFcompare_Eq_finite in E.
  rewrite <- (SF2Prim_Prim2SF x), <- (SF2Prim_Prim2SF y). congruence.
Qed.

(** [x == y] implies [x <= y]. *)
Lemma float_eq_le (a b : float) : Py.eq a b = true → Py.le a b = true.
Proof.
  unfold Py.eq, Py.le. rewrite FloatAxioms.eqb_spec, leb_spec.
  unfold SFeqb, SFleb.
  now destruct (SFcompare (Prim2SF a) (Prim2SF b)) as [[]|].
Qed.

Lemma float_eq_Infinity (x : float) : Py.eq x 1e+20 = true → x = 1e+20%float.
Proof. now apply (float_eq_finite x 1e+20 false 6103515625000000 14). Qed.

Lemma float_eq_negInfinity (x : float) :
  Py.eq x (-1e+20) = true → x = (-1e+20)%float.
Proof. now apply (float_eq_finite x (-1e+20) true 6103515625000000 14). Qed.

(** The tolerance [math.pow(10.0, -6.0)] is the binary64 value nearest to
    10^-6: it is [4722366482869645 * 2^-72], within half a unit in the last
    place of 10^-6. *)
Lemma pow_10_m6_nearest :
  Prim2SF Py.pow_10_m6 = S754_finite false 4722366482869645 (-72) ∧
  2 * Z.abs (4722366482869645 * 10 ^ 6 - 2 ^ 72) ≤ 10 ^ 6.
Proof. split; [reflexivity | now vm_compute]. Qed.

(** ** Indexing and the loop body *)

Lemma getitem_nonneg (v : list float) (i : Z) :
  0 ≤ i →
  Py.getitem v i = match v !! Z.to_nat i with
                   | Some x => Ok x
                   | None => Raise IndexError
                   end.
Proof.
  intros Hi. unfold Py.getitem.
  destruct (i <? 0) eqn:E; [lia|]. now rewrite E.
Qed.

Lemma classify_index_Ok (L U : list float) (c c' : Classes) (i : Z) :
  0 ≤ i →
  classify_index 1e+20 (-1e+20) L U c i = Ok c' ↔
  ∃ k, kind_at L U i = Some k ∧ c' = append_to k i c.
Proof.
  intros Hi. unfold classify_index, kind_at, bound_rule.
  rewrite !(getitem_nonneg _ i Hi).
  destruct (L !! Z.to_nat i) as [l|]; simpl.
  2: { split; [discriminate | intros (k & ? & _); discriminate]. }
  destruct (U !! Z.to_nat i) as [u|]; simpl.
  - destruct (Py.gt l (-1e+20)) eqn:El; simpl;
      [destruct (Py.lt u 1e+20) eqn:Eu; simpl;
         [destruct (Py.eq l u); simpl | rewrite ?El; simpl]
      | rewrite ?El; simpl; destruct (Py.lt u 1e+20) eqn:Eu; simpl].
    all: split; [intros [= <-]; eexists; split; [reflexivity|reflexivity]
                | intros (k & [= <-] & ->); reflexivity].
  - split; [|intros (k & ? & _); discriminate].
    destruct (Py.gt l (-1e+20)) eqn:El; simpl; rewrite ?El; simpl; discriminate.
Qed.

Lemma select_append_to (k k0 : BoundKind) (i : Z) (c : Classes) :
  select k (append_to k0 i c)
  = select k c ++ (if decide (k0 = k) then [i] else []).
Proof. destruct k, k0; simpl; now rewrite ?app_nil_r. Qed.

Section Loop.
Variables L U : list float.

Let body := classify_index 1e+20 (-1e+20) L U.

Lemma for_each_classify (idx : list Z) :
  Forall (λ i, 0 ≤ i) idx →
  ∀ c c', Py.for_each body c idx = Ok c' →
    Forall (λ i, is_Some (kind_at L U i)) idx ∧
    ∀ k, select k c' = select k c ++ filter (λ i, kind_at L U i = Some k) idx.
Proof.
  induction 1 as [|i idx Hi Hidx IH]; intros c c'; simpl.
  - intros [= <-]. split; [constructor|]. intros k. now rewrite app_nil_r.
  - destruct (body c i) as [c1|e] eqn:Eb; simpl; [|discriminate].
    apply classify_index_Ok in Eb as (k0 & Hk0 & ->); [|exact Hi].
    intros Hrest. destruct (IH _ _ Hrest) as [Hall Hsel].
    split; [constructor; [rewrite Hk0; eauto | exact Hall]|].
    intros k. rewrite Hsel, select_append_to, filter_cons, Hk0, <- app_assoc.
    f_equal. destruct (decide (k0 = k)) as [->|Hne].
    + now rewrite decide_True.
    + rewrite decide_False; [reflexivity | congruence].
Qed.

End Loop.

(** ** The whole loop over [range(k)] *)

Lemma ascending_seqZ (a k : Z) : ascending (seqZ a k).
Proof.
  unfold ascending, seqZ.
  apply (StronglySorted_fmap _ lt); [intros; lia|].
  generalize 0%nat. induction (Z.to_nat k) as [|len IH]; intros s; simpl.
  - constructor.
  - constructor; [apply IH|].
    apply Forall_forall. intros j Hj%elem_of_seq. lia.
Qed.

Lemma ascending_filter (P : Z → Prop) `{∀ i, Decision (P i)} (l : list Z) :
  ascending l → ascending (filter P l).
Proof.
  unfold ascending. induction 1 as [|i l Hl IH Hi]; [constructor|].
  rewrite filter_cons. destruct (decide (P i)); [|exact IH].
  constructor; [exact IH|].
  apply Forall_forall. intros j [_ Hj]%list_elem_of_filter.
  rewrite Forall_forall in Hi. auto.
Qed.

Lemma ascending_NoDup (l : list Z) : ascending l → NoDup l.
Proof.
  unfold ascending. induction 1 as [|i l _ IH Hi]; constructor; [|exact IH].
  rewrite Forall_forall in Hi. intros Hin%Hi. lia.
Qed.

Lemma filter_kinds_length (L U : list float) (idx : list Z) :
  Forall (λ i, is_Some (kind_at L U i)) idx →
  (length (filter (λ i, kind_at L U i = Some Equal) idx)
   + length (filter (λ i, kind_at L U i = Some Range) idx)
   + length (filter (λ i, kind_at L U i = Some Lower) idx)
   + length (filter (λ i, kind_at L U i = Some Upper) idx)
   + length (filter (λ i, kind_at L U i = Some Free) idx))%nat
  = length idx.
Proof.
  induction 1 as [|i idx [k Hk] _ IH]; [reflexivity|].
  rewrite !filter_cons, Hk.
  destruct k; repeat (case_decide; try congruence); cbn [length]; clear -IH; lia.
Qed.

Lemma classify_Ok (L U : list float) (k : Z) (C : Classes) :
  classify 1e+20 (-1e+20) L U k = Ok C →
  classified L U k (λ c, select c C).
Proof.
  unfold classify. intros HC.
  apply for_each_classify in HC as [Hall Hsel].
  - split; [|intros c; rewrite Hsel; now destruct c].
    intros i Hi. rewrite Forall_forall in Hall. apply Hall.
    apply elem_of_seqZ. lia.
  - apply Forall_forall. intros i Hi%elem_of_seqZ. lia.
Qed.


Section Classified.
Context {L U : list float} {k : Z} {lists : BoundKind → list Z}.
Hypothesis H : classified L U k lists.

Lemma classified_elem (c : BoundKind) (i : Z) :
  i ∈ lists c ↔ 0 ≤ i < k ∧ kind_at L U i = Some c.
Proof.
  rewrite (cl_lists _ _ _ _ H), list_elem_of_filter.
  unfold Py.range. rewrite elem_of_seqZ. intuition lia.
Qed.

Lemma classified_entries (i : Z) :
  0 ≤ i < k →
  ∃ l u, L !! Z.to_nat i = Some l ∧ U !! Z.to_nat i = Some u ∧
         ∀ c, i ∈ lists c ↔ c = bound_rule l u.
Proof.
  intros Hi. destruct (cl_defined _ _ _ _ H i Hi) as [c0 Hc0].
  unfold kind_at in Hc0.
  destruct (L !! Z.to_nat i) as [l|] eqn:El; [|discriminate].
  destruct (U !! Z.to_nat i) as [u|] eqn:Eu; [|discriminate].
  exists l, u. split; [reflexivity|]. split; [reflexivity|].
  intros c. rewrite classified_elem. unfold kind_at. rewrite El, Eu. simpl.
  split; [intros [_ [= <-]]; reflexivity | intros ->; auto].
Qed.

Lemma classified_at (i : Z) (l u : float) (c : BoundKind) :
  0 ≤ i < k → L !! Z.to_nat i = Some l → U !! Z.to_nat i = Some u →
  i ∈ lists c ↔ c = bound_rule l u.
Proof.
  intros Hi Hl Hu.
  destruct (classified_entries i Hi) as (l' & u' & Hl' & Hu' & Hc).
  rewrite Hl in Hl'. rewrite Hu in Hu'.
  injection Hl' as <-. injection Hu' as <-. apply Hc.
Qed.

(** Two bounds at the same sentinel compare equal, yet the index is not in
    the [Equal] list: the finiteness tests come first. *)
Lemma classified_sentinels (i : Z) (l u : float) :
  0 ≤ i < k → L !! Z.to_nat i = Some l → U !! Z.to_nat i = Some u →
  (Py.eq l 1e+20 = true → Py.eq u 1e+20 = true →
   Py.eq l u = true ∧ i ∈ lists Lower ∧ i ∉ lists Equal) ∧
  (Py.eq l (-1e+20) = true → Py.eq u (-1e+20) = true →
   Py.eq l u = true ∧ i ∈ lists Upper ∧ i ∉ lists Equal).
Proof.
  intros Hi Hl Hu. pose proof (classified_at i l u) as Hc.
  split.
  - intros ->%float_eq_Infinity ->%float_eq_Infinity.
    split; [reflexivity|]. split.
    + now apply (Hc Lower).
    + intros Hin%(Hc Equal); [discriminate Hin | done..].
  - intros ->%float_eq_negInfinity ->%float_eq_negInfinity.
    split; [reflexivity|]. split.
    + now apply (Hc Upper).
    + intros Hin%(Hc Equal); [discriminate Hin | done..].
Qed.


Lemma classified_partitions : partitions k lists.
Proof.
  split.
  - intros i Hi. destruct (classified_entries i Hi) as (l & u & _ & _ & Hc).
    eauto.
  - intros c i Hi%classified_elem. tauto.
Qed.

Lemma classified_ascending (c : BoundKind) : ascending (lists c).
Proof.
  rewrite (cl_lists _ _ _ _ H). apply ascending_filter, ascending_seqZ.
Qed.

Lemma classified_count :
  Py.len (lists Equal) + Py.len (lists Range) + Py.len (lists Lower)
  + Py.len (lists Upper) + Py.len (lists Free) = Z.max 0 k.
Proof.
  assert (Forall (λ i, is_Some (kind_at L U i)) (Py.range k)) as Hall.
  { apply Forall_forall. intros i Hi%elem_of_seqZ.
    apply (cl_defined _ _ _ _ H). lia. }
  apply filter_kinds_length in Hall.
  unfold Py.range in Hall at 6. rewrite length_seqZ in Hall.
  unfold Py.len. rewrite !(cl_lists _ _ _ _ H). lia.
Qed.
End Classified.

(** ** The constructor *)

(** What [__init__] has established when it returns. *)
Lemma init_Ok (n m : Z) (name : string) (kwargs : gmap string (list float))
    (self : NLPModel.t) :
  NLPModel.__init__ n m name kwargs = Ok self →
  constructed n m self.
Proof.
  unfold NLPModel.__init__.
  destruct (Py.get_or kwargs "x0" _) as [x0|]; simpl; [|discriminate].
  destruct (Py.get_or kwargs "pi0" _) as [pi0|]; simpl; [|discriminate].
  destruct (Py.get_or kwargs "Lvar" _) as [Lvar|]; simpl; [|discriminate].
  destruct (Py.get_or kwargs "Uvar" _) as [Uvar|]; simpl; [|discriminate].
  destruct (Py.get_or kwargs "Lcon" _) as [Lcon|]; simpl; [|discriminate].
  destruct (Py.get_or kwargs "Ucon" _) as [Ucon|]; simpl; [|discriminate].
  destruct (classify _ _ Lcon Ucon m) as [C|] eqn:EC; simpl; [|discriminate].
  destruct (classify _ _ Lvar Uvar n) as [B|] eqn:EB; simpl; [|discriminate].
  intros [= <-].
  apply classify_Ok in EC. apply classify_Ok in EB.
  split; simpl; try reflexivity.
  - destruct EC as [HC1 HC2]. split; [exact HC1|]. intros c. specialize (HC2 c). now destruct c.
  - destruct EB as [HB1 HB2]. split; [exact HB1|]. intros c. specialize (HB2 c). now destruct c.
Qed.

(** The outcome of [Py.numpy_dimension]. *)
Lemma numpy_dimension_cases (k : Z) :
  (numpy_accepts k ∧ Py.numpy_dimension k = Ok (Z.to_nat k)) ∨
  (¬ numpy_accepts k ∧ Py.numpy_dimension k = Raise ValueError).
Proof.
  unfold numpy_accepts, Py.numpy_dimension, Py.NPY_MAX_INTP, Py.itemsize.
  destruct (2 ^ 63 - 1 <? k) eqn:E1; [right; split; [lia|done]|].
  destruct (k <? 0) eqn:E2; [right; split; [lia|done]|].
  destruct (2 ^ 63 - 1 <? 8 * k) eqn:E3; [right; split; [lia|done]|].
  left. split; [lia|done].
Qed.

(** The outcome of reading a vector from [kwargs], with its default. *)
Lemma get_or_zeros_cases (kwargs : gmap string (list float)) (key : string)
    (k : Z) :
  (∃ v, Py.get_or kwargs key (Py.numpy_zeros k) = Ok v ∧
        match kwargs !! key with
        | Some w => v = w
        | None => numpy_accepts k ∧ v = replicate (Z.to_nat k) 0%float
        end) ∨
  (Py.get_or kwargs key (Py.numpy_zeros k) = Raise ValueError ∧
   kwargs !! key = None ∧ ¬ numpy_accepts k).
Proof.
  unfold Py.get_or, Py.numpy_zeros.
  destruct (kwargs !! key) as [w|]; [left; eauto|].
  destruct (numpy_dimension_cases k) as [[Hk ->]|[Hk ->]]; simpl.
  - left. eauto.
  - right. done.
Qed.

Lemma get_or_bound_cases (kwargs : gmap string (list float)) (key : string)
    (a : float) (k : Z) :
  (∃ v, Py.get_or kwargs key (Py.scale a <$> Py.numpy_ones k) = Ok v ∧
        match kwargs !! key with
        | Some w => v = w
        | None => numpy_accepts k ∧ v = replicate (Z.to_nat k) (a * 1)%float
        end) ∨
  (Py.get_or kwargs key (Py.scale a <$> Py.numpy_ones k) = Raise ValueError ∧
   kwargs !! key = None ∧ ¬ numpy_accepts k).
Proof.
  unfold Py.get_or, Py.numpy_ones.
  destruct (kwargs !! key) as [w|]; [left; eauto|].
  destruct (numpy_dimension_cases k) as [[Hk ->]|[Hk ->]]; simpl.
  - left. eexists. split; [reflexivity|]. split; [done|].
    unfold Py.scale. now rewrite fmap_replicate.
  - right. done.
Qed.




(** * The claims of the specification *)

(** ** C1 *)

(** C1, as the specification states it, fails: on the base class the call
    does not return [False].  With the generic model, under Python 2 it
    returns [True] and under Python 3 it raises [TypeError]. *)
Lemma C1_base_class_does_not_return_false :
  ∃ self, NLPModel.__init__ 0 0 "Generic" ∅ = Ok self ∧
    NLPModel.AtOptimality NLPModel.Base Python2 self [] [] = Ok true ∧
    NLPModel.AtOptimality NLPModel.Base Python3 self [] [] = Raise TypeError.
Proof. eexists. split; [reflexivity|]. split; reflexivity. Qed.

(** C1, amended: for every model, [x] and [z], [AtOptimality(x, z)] on the
    base class, whose residuals are [(None, None, None)], never returns
    [False]: where [None] orders below every number (Python 2) the three
    comparisons hold and it returns [True]; where [None] cannot be ordered
    against a float (Python 3) the first comparison raises [TypeError]. *)
Theorem C1_base_class_AtOptimality (v : PyVersion) (self : NLPModel.t)
    (x z : list float) :
  NLPModel.AtOptimality NLPModel.Base v self x z
  = match v with
    | Python2 => Ok true
    | Python3 => Raise TypeError
    end.
Proof. destruct v; reflexivity. Qed.

(** ** C2 *)

(** C2: after construction every constraint index [i] of [0 .. m-1] has
    entries [Lcon[i]] and [Ucon[i]] and lies in the list of category [c]
    exactly when [c] is the category that the rule of the specification
    gives to that pair of bounds; the same holds for every variable index of
    [0 .. n-1] with [Lvar], [Uvar] and the lists [fixedB], [rangeB],
    [lowerB], [upperB], [freeB]. *)
Theorem C2_classification_rule (n m : Z) (name : string)
    (kwargs : gmap string (list float)) (self : NLPModel.t) :
  NLPModel.__init__ n m name kwargs = Ok self →
  (∀ i, 0 ≤ i < m →
     ∃ l u, NLPModel.Lcon self !! Z.to_nat i = Some l ∧
            NLPModel.Ucon self !! Z.to_nat i = Some u ∧
            ∀ c, i ∈ constraints_of c self ↔ c = bound_rule l u) ∧
  (∀ i, 0 ≤ i < n →
     ∃ l u, NLPModel.Lvar self !! Z.to_nat i = Some l ∧
            NLPModel.Uvar self !! Z.to_nat i = Some u ∧
            ∀ c, i ∈ variables_of c self ↔ c = bound_rule l u).
Proof.
  intros Hinit%init_Ok. split; intros i Hi.
  - exact (classified_entries (init_C _ _ _ Hinit) i Hi).
  - exact (classified_entries (init_B _ _ _ Hinit) i Hi).
Qed.

(** C2 at the sample input. *)
Lemma C2_classification_rule_witness :
  ∃ self, NLPModel.__init__ 2 6 "demo" demo_kwargs = Ok self ∧
  (∀ i, 0 ≤ i < 6 →
     ∃ l u, NLPModel.Lcon self !! Z.to_nat i = Some l ∧
            NLPModel.Ucon self !! Z.to_nat i = Some u ∧
            ∀ c, i ∈ constraints_of c self ↔ c = bound_rule l u) ∧
  (∀ i, 0 ≤ i < 2 →
     ∃ l u, NLPModel.Lvar self !! Z.to_nat i = Some l ∧
            NLPModel.Uvar self !! Z.to_nat i = Some u ∧
            ∀ c, i ∈ variables_of c self ↔ c = bound_rule l u).
Proof.
  eexists. split; [reflexivity|].
  apply (C2_classification_rule 2 6 "demo" demo_kwargs). reflexivity.
Defined.

(** ** C3 *)

(** C3: in every model that the constructor returns for dimensions
    [n, m >= 0], the five constraint lists partition [0 .. m-1] (each index
    in exactly one list, once, and nothing else in the lists) and the five
    counts add up to [m]; likewise the five variable lists partition
    [0 .. n-1] and their counts add up to [n]. *)
Theorem C3_partition (n m : Z) (name : string)
    (kwargs : gmap string (list float)) (self : NLPModel.t) :
  0 ≤ n → 0 ≤ m →
  NLPModel.__init__ n m name kwargs = Ok self →
  partitions m (λ c, constraints_of c self) ∧
  (∀ c, NoDup (constraints_of c self)) ∧
  NLPModel.nequalC self + NLPModel.nrangeC self + NLPModel.nlowerC self
    + NLPModel.nupperC self + NLPModel.nfreeC self = m ∧
  partitions n (λ c, variables_of c self) ∧
  (∀ c, NoDup (variables_of c self)) ∧
  NLPModel.nfixedB self + NLPModel.nrangeB self + NLPModel.nlowerB self
    + NLPModel.nupperB self + NLPModel.nfreeB self = n.
Proof.
  intros Hn Hm Hinit%init_Ok.
  destruct Hinit as [_ _ HC HB -> -> -> -> -> -> -> -> -> -> _ _ _ _].
  split; [exact (classified_partitions HC)|].
  split; [intros c; apply ascending_NoDup, (classified_ascending HC)|].
  split; [pose proof (classified_count HC) as Hc;
          cbn [constraints_of] in Hc; lia|].
  split; [exact (classified_partitions HB)|].
  split; [intros c; apply ascending_NoDup, (classified_ascending HB)|].
  pose proof (classified_count HB) as Hc. cbn [variables_of] in Hc. lia.
Qed.

(** C3 at the sample input. *)
Lemma C3_partition_witness :
  ∃ self, NLPModel.__init__ 2 6 "demo" demo_kwargs = Ok self ∧
    partitions 6 (λ c, constraints_of c self) ∧
    (∀ c, NoDup (constraints_of c self)) ∧
    NLPModel.nequalC self + NLPModel.nrangeC self + NLPModel.nlowerC self
      + NLPModel.nupperC self + NLPModel.nfreeC self = 6 ∧
    partitions 2 (λ c, variables_of c self) ∧
    (∀ c, NoDup (variables_of c self)) ∧
    NLPModel.nfixedB self + NLPModel.nrangeB self + NLPModel.nlowerB self
      + NLPModel.nupperB self + NLPModel.nfreeB self = 2.
Proof.
  eexists. split; [reflexivity|].
  apply (C3_partition 2 6 "demo" demo_kwargs); [lia | lia | reflexivity].
Defined.

(** ** C4 *)

(** C4: [NLPModel(3, 2)] without keyword arguments returns a model with
    [x0 = [0, 0, 0]], [pi0 = [0, 0]], [Lvar = [-1e20] * 3],
    [Uvar = [1e20] * 3], both constraints in [freeC] and none elsewhere, the
    three variables in [freeB] and none elsewhere, [nln = [0, 1]] and
    [lin = net = []]. *)
Theorem C4_default_construction :
  ∃ self, NLPModel.__init__ 3 2 "Generic" ∅ = Ok self ∧
    NLPModel.x0 self = [0; 0; 0]%float ∧
    NLPModel.pi0 self = [0; 0]%float ∧
    NLPModel.Lvar self = [-1e+20; -1e+20; -1e+20]%float ∧
    NLPModel.Uvar self = [1e+20; 1e+20; 1e+20]%float ∧
    NLPModel.freeC self = [0; 1] ∧
    NLPModel.equalC self = [] ∧ NLPModel.rangeC self = [] ∧
    NLPModel.lowerC self = [] ∧ NLPModel.upperC self = [] ∧
    NLPModel.freeB self = [0; 1; 2] ∧
    NLPModel.fixedB self = [] ∧ NLPModel.rangeB self = [] ∧
    NLPModel.lowerB self = [] ∧ NLPModel.upperB self = [] ∧
    NLPModel.nln self = [0; 1] ∧
    NLPModel.lin self = [] ∧
    NLPModel.net self = [].
Proof.
  eexists. split; [vm_compute; reflexivity|].
  repeat split.
Qed.

(** ** C5 *)

(** C5: when [OptimalityResiduals] returns three floats [(d, c, p)],
    [AtOptimality] returns a boolean, which is [True] exactly when
    [d <= stop_d], [c <= stop_c] and [p <= stop_p]; it is [True] when each
    residual equals its tolerance and [False] as soon as one residual is
    greater than its tolerance; and the three tolerances of a model that
    [__init__] returned are [math.pow(10.0, -6.0)], the float [1e-6]. *)
Theorem C5_AtOptimality_defined (cls : NLPModel.Methods) (v : PyVersion)
    (self : NLPModel.t) (x z : list float) (d c p : float) :
  @NLPModel.OptimalityResiduals cls self x z = (Some d, Some c, Some p) →
  ∃ b : bool, NLPModel.AtOptimality cls v self x z = Ok b ∧
    (b = true ↔ Py.le d (NLPModel.stop_d self) = true ∧
                Py.le c (NLPModel.stop_c self) = true ∧
                Py.le p (NLPModel.stop_p self) = true) ∧
    (Py.eq d (NLPModel.stop_d self) = true →
     Py.eq c (NLPModel.stop_c self) = true →
     Py.eq p (NLPModel.stop_p self) = true → b = true) ∧
    (Py.gt d (NLPModel.stop_d self) = true ∨
     Py.gt c (NLPModel.stop_c self) = true ∨
     Py.gt p (NLPModel.stop_p self) = true → b = false) ∧
    (∀ n m name kwargs,
       NLPModel.__init__ n m name kwargs = Ok self →
       NLPModel.stop_d self = Py.pow_10_m6 ∧
       NLPModel.stop_c self = Py.pow_10_m6 ∧
       NLPModel.stop_p self = Py.pow_10_m6).
Proof.
  intros Hres.
  exists (Py.le d (NLPModel.stop_d self) && Py.le c (NLPModel.stop_c self)
          && Py.le p (NLPModel.stop_p self)).
  split.
  { unfold NLPModel.AtOptimality. rewrite Hres. simpl.
    destruct (Py.le d _); simpl; [|reflexivity].
    destruct (Py.le c _); simpl; [|reflexivity].
    now destruct (Py.le p _). }
  split; [rewrite !andb_true_iff; tauto|].
  split.
  { intros Hd%float_eq_le Hc%float_eq_le Hp%float_eq_le.
    now rewrite Hd, Hc, Hp. }
  split.
  { unfold Py.gt.
    intros [Hd%float_lt_not_ge|[Hc%float_lt_not_ge|Hp%float_lt_not_ge]].
    - now rewrite Hd.
    - rewrite Hc. now rewrite andb_false_r.
    - rewrite Hp. now rewrite andb_false_r. }
  intros n m name kwargs Hinit%init_Ok.
  destruct Hinit as [_ _ _ _ _ _ _ _ _ _ _ _ _ _ _ -> -> ->].
  repeat split.
Qed.

(** C5 for the sample subclass, on the model of the sample input. *)
Lemma C5_AtOptimality_defined_witness :
  ∃ self, NLPModel.__init__ 2 6 "demo" demo_kwargs = Ok self ∧
  ∃ b : bool, NLPModel.AtOptimality demo_methods Python3 self [] [] = Ok b ∧
    (b = true ↔ Py.le Py.pow_10_m6 (NLPModel.stop_d self) = true ∧
                Py.le 0 (NLPModel.stop_c self) = true ∧
                Py.le 0x1p-21 (NLPModel.stop_p self) = true) ∧
    (Py.eq Py.pow_10_m6 (NLPModel.stop_d self) = true →
     Py.eq 0 (NLPModel.stop_c self) = true →
     Py.eq 0x1p-21 (NLPModel.stop_p self) = true → b = true) ∧
    (Py.gt Py.pow_10_m6 (NLPModel.stop_d self) = true ∨
     Py.gt 0 (NLPModel.stop_c self) = true ∨
     Py.gt 0x1p-21 (NLPModel.stop_p self) = true → b = false) ∧
    (∀ n m name kwargs,
       NLPModel.__init__ n m name kwargs = Ok self →
       NLPModel.stop_d self = Py.pow_10_m6 ∧
       NLPModel.stop_c self = Py.pow_10_m6 ∧
       NLPModel.stop_p self = Py.pow_10_m6).
Proof.
  eexists. split; [reflexivity|].
  apply (C5_AtOptimality_defined demo_methods Python3). reflexivity.
Defined.

(** ** C6 *)

(** C6: [ResetCounters()] returns normally on every model; afterwards the
    seven counters are zero and every other attribute has the value it had
    before. *)
Theorem C6_ResetCounters (self : NLPModel.t) :
  ∃ self', NLPModel.ResetCounters self = Ok (tt, self') ∧
    (NLPModel.feval self' = 0 ∧ NLPModel.geval self' = 0 ∧
     NLPModel.Heval self' = 0 ∧ NLPModel.Hprod self' = 0 ∧
     NLPModel.ceval self' = 0 ∧ NLPModel.Jeval self' = 0 ∧
     NLPModel.Jprod self' = 0) ∧
    (NLPModel.n self' = NLPModel.n self ∧
     NLPModel.m self' = NLPModel.m self ∧
     NLPModel.name self' = NLPModel.name self ∧
     NLPModel.Infinity self' = NLPModel.Infinity self ∧
     NLPModel.negInfinity self' = NLPModel.negInfinity self ∧
     NLPModel.zero self' = NLPModel.zero self ∧
     NLPModel.one self' = NLPModel.one self ∧
     NLPModel.x0 self' = NLPModel.x0 self ∧
     NLPModel.pi0 self' = NLPModel.pi0 self ∧
     NLPModel.Lvar self' = NLPModel.Lvar self ∧
     NLPModel.Uvar self' = NLPModel.Uvar self ∧
     NLPModel.Lcon self' = NLPModel.Lcon self ∧
     NLPModel.Ucon self' = NLPModel.Ucon self) ∧
    (NLPModel.lin self' = NLPModel.lin self ∧
     NLPModel.nln self' = NLPModel.nln self ∧
     NLPModel.net self' = NLPModel.net self ∧
     NLPModel.nlin self' = NLPModel.nlin self ∧
     NLPModel.nnln self' = NLPModel.nnln self ∧
     NLPModel.nnet self' = NLPModel.nnet self) ∧
    (NLPModel.rangeC self' = NLPModel.rangeC self ∧
     NLPModel.lowerC self' = NLPModel.lowerC self ∧
     NLPModel.upperC self' = NLPModel.upperC self ∧
     NLPModel.equalC self' = NLPModel.equalC self ∧
     NLPModel.freeC self' = NLPModel.freeC self ∧
     NLPModel.nlowerC self' = NLPModel.nlowerC self ∧
     NLPModel.nrangeC self' = NLPModel.nrangeC self ∧
     NLPModel.nupperC self' = NLPModel.nupperC self ∧
     NLPModel.nequalC self' = NLPModel.nequalC self ∧
     NLPModel.nfreeC self' = NLPModel.nfreeC self) ∧
    (NLPModel.rangeB self' = NLPModel.rangeB self ∧
     NLPModel.lowerB self' = NLPModel.lowerB self ∧
     NLPModel.upperB self' = NLPModel.upperB self ∧
     NLPModel.fixedB self' = NLPModel.fixedB self ∧
     NLPModel.freeB self' = NLPModel.freeB self ∧
     NLPModel.nlowerB self' = NLPModel.nlowerB self ∧
     NLPModel.nrangeB self' = NLPModel.nrangeB self ∧
     NLPModel.nupperB self' = NLPModel.nupperB self ∧
     NLPModel.nfixedB self' = NLPModel.nfixedB self ∧
     NLPModel.nfreeB self' = NLPModel.nfreeB self ∧
     NLPModel.nbounds self' = NLPModel.nbounds self) ∧
    (NLPModel.stop_d self' = NLPModel.stop_d self ∧
     NLPModel.stop_c self' = NLPModel.stop_c self ∧
     NLPModel.stop_p self' = NLPModel.stop_p self).
Proof.
  eexists. split; [reflexivity|]. destruct self. simpl. tauto.
Qed.

(** ** C7 *)

(** C7: in the model that [__init__(n, m, ...)] returns, [nbounds] equals
    [n - nfreeB], where attribute [n] is the argument [n] and [nfreeB] is the
    length of [freeB]. *)
Theorem C7_nbounds (n m : Z) (name : string)
    (kwargs : gmap string (list float)) (self : NLPModel.t) :
  NLPModel.__init__ n m name kwargs = Ok self →
  NLPModel.nbounds self = NLPModel.n self - NLPModel.nfreeB self ∧
  NLPModel.n self = n ∧
  NLPModel.nfreeB self = Py.len (NLPModel.freeB self).
Proof.
  intros Hinit%init_Ok.
  rewrite (init_nbounds _ _ _ Hinit), (init_n _ _ _ Hinit).
  split; [reflexivity|]. split; [reflexivity|].
  apply (init_nfreeB _ _ _ Hinit).
Qed.

(** C7 at the sample input. *)
Lemma C7_nbounds_witness :
  ∃ self, NLPModel.__init__ 2 6 "demo" demo_kwargs = Ok self ∧
    NLPModel.nbounds self = NLPModel.n self - NLPModel.nfreeB self ∧
    NLPModel.n self = 2 ∧
    NLPModel.nfreeB self = Py.len (NLPModel.freeB self).
Proof.
  eexists. split; [reflexivity|].
  apply (C7_nbounds 2 6 "demo" demo_kwargs). reflexivity.
Defined.

(** ** C8 *)

(** C8: each of the ten index lists of a constructed model is strictly
    ascending, and construction is deterministic: a second construction from
    the same arguments returns the same model, and the lists depend on
    nothing but the dimensions and the bound vectors. *)
Theorem C8_ascending_deterministic (n m : Z) (name : string)
    (kwargs : gmap string (list float)) (self : NLPModel.t) :
  NLPModel.__init__ n m name kwargs = Ok self →
  (∀ c, ascending (constraints_of c self)) ∧
  (∀ c, ascending (variables_of c self)) ∧
  (∀ self', NLPModel.__init__ n m name kwargs = Ok self' → self' = self) ∧
  (∀ name' kwargs' self',
     NLPModel.__init__ n m name' kwargs' = Ok self' →
     NLPModel.Lcon self' = NLPModel.Lcon self →
     NLPModel.Ucon self' = NLPModel.Ucon self →
     NLPModel.Lvar self' = NLPModel.Lvar self →
     NLPModel.Uvar self' = NLPModel.Uvar self →
     ∀ c, constraints_of c self' = constraints_of c self ∧
          variables_of c self' = variables_of c self).
Proof.
  intros Hinit. pose proof (init_Ok _ _ _ _ _ Hinit) as Hpost.
  split; [intros c; apply (classified_ascending (init_C _ _ _ Hpost))|].
  split; [intros c; apply (classified_ascending (init_B _ _ _ Hpost))|].
  split; [intros self' Hinit'; congruence|].
  intros name' kwargs' self' Hpost'%init_Ok ELc EUc ELv EUv c.
  rewrite (cl_lists _ _ _ _ (init_C _ _ _ Hpost') c).
  rewrite (cl_lists _ _ _ _ (init_B _ _ _ Hpost') c).
  rewrite (cl_lists _ _ _ _ (init_C _ _ _ Hpost) c).
  rewrite (cl_lists _ _ _ _ (init_B _ _ _ Hpost) c).
  now rewrite ELc, EUc, ELv, EUv.
Qed.

(** C8 at the sample input. *)
Lemma C8_ascending_deterministic_witness :
  ∃ self, NLPModel.__init__ 2 6 "demo" demo_kwargs = Ok self ∧
  (∀ c, ascending (constraints_of c self)) ∧
  (∀ c, ascending (variables_of c self)) ∧
  (∀ self', NLPModel.__init__ 2 6 "demo" demo_kwargs = Ok self' →
     self' = self) ∧
  (∀ name' kwargs' self',
     NLPModel.__init__ 2 6 name' kwargs' = Ok self' →
     NLPModel.Lcon self' = NLPModel.Lcon self →
     NLPModel.Ucon self' = NLPModel.Ucon self →
     NLPModel.Lvar self' = NLPModel.Lvar self →
     NLPModel.Uvar self' = NLPModel.Uvar self →
     ∀ c, constraints_of c self' = constraints_of c self ∧
          variables_of c self' = variables_of c self).
Proof.
  eexists. split; [reflexivity|].
  apply (C8_ascending_deterministic 2 6 "demo" demo_kwargs). reflexivity.
Defined.

(** ** C9 *)

(** C9: in a constructed model, a constraint whose two bounds both equal
    [1e20] is in [lowerC] and not in [equalC], and one whose two bounds both
    equal [-1e20] is in [upperC] and not in [equalC], although in both cases
    [Lcon[i] == Ucon[i]] holds; likewise a variable with both bounds at
    [1e20] is in [lowerB] and one with both at [-1e20] is in [upperB], and
    neither is in [fixedB]. *)
Theorem C9_sentinel_bounds (n m : Z) (name : string)
    (kwargs : gmap string (list float)) (self : NLPModel.t) :
  NLPModel.__init__ n m name kwargs = Ok self →
  (∀ i l u, 0 ≤ i < m →
     NLPModel.Lcon self !! Z.to_nat i = Some l →
     NLPModel.Ucon self !! Z.to_nat i = Some u →
     (Py.eq l 1e+20 = true → Py.eq u 1e+20 = true →
      Py.eq l u = true ∧
      i ∈ NLPModel.lowerC self ∧ i ∉ NLPModel.equalC self) ∧
     (Py.eq l (-1e+20) = true → Py.eq u (-1e+20) = true →
      Py.eq l u = true ∧
      i ∈ NLPModel.upperC self ∧ i ∉ NLPModel.equalC self)) ∧
  (∀ i l u, 0 ≤ i < n →
     NLPModel.Lvar self !! Z.to_nat i = Some l →
     NLPModel.Uvar self !! Z.to_nat i = Some u →
     (Py.eq l 1e+20 = true → Py.eq u 1e+20 = true →
      Py.eq l u = true ∧
      i ∈ NLPModel.lowerB self ∧ i ∉ NLPModel.fixedB self) ∧
     (Py.eq l (-1e+20) = true → Py.eq u (-1e+20) = true →
      Py.eq l u = true ∧
      i ∈ NLPModel.upperB self ∧ i ∉ NLPModel.fixedB self)).
Proof.
  intros Hpost%init_Ok. split; intros i l u Hi Hl Hu.
  - exact (classified_sentinels (init_C _ _ _ Hpost) i l u Hi Hl Hu).
  - exact (classified_sentinels (init_B _ _ _ Hpost) i l u Hi Hl Hu).
Qed.

(** C9 at the sample input: constraint 3 and variable 0 have both bounds at
    [1e20], constraint 4 has both at [-1e20]. *)
Lemma C9_sentinel_bounds_witness :
  ∃ self, NLPModel.__init__ 2 6 "demo" demo_kwargs = Ok self ∧
    (3 ∈ NLPModel.lowerC self ∧ 3 ∉ NLPModel.equalC self) ∧
    (4 ∈ NLPModel.upperC self ∧ 4 ∉ NLPModel.equalC self) ∧
    (0 ∈ NLPModel.lowerB self ∧ 0 ∉ NLPModel.fixedB self).
Proof.
  eexists. split; [reflexivity|].
  destruct (C9_sentinel_bounds 2 6 "demo" demo_kwargs _ eq_refl) as [HC HB].
  split; [|split].
  - destruct (HC 3 1e+20%float 1e+20%float) as [H _];
      [lia | reflexivity | reflexivity |].
    exact (proj2 (H eq_refl eq_refl)).
  - destruct (HC 4 (-1e+20)%float (-1e+20)%float) as [_ H];
      [lia | reflexivity | reflexivity |].
    exact (proj2 (H eq_refl eq_refl)).
  - destruct (HB 0 1e+20%float 1e+20%float) as [H _];
      [lia | reflexivity | reflexivity |].
    exact (proj2 (H eq_refl eq_refl)).
Defined.

(** ** C10 *)




(** * Further properties of the class *)

(** ** NaN and comparisons *)

Lemma compare_cont_refl (p : positive) : PosDef.Pos.compare_cont Eq p p = Eq.
Proof. exact (Pos.compare_refl p). Qed.

Lemma SFcompare_refl (a : spec_float) :
  a = S754_nan ∨ SFcompare a a = Some Eq.
Proof.
  destruct a as [s|s| |s ma ea]; simpl; [right|right|left|right]; try done.
  - now destruct s.
  - rewrite Z.compare_refl, compare_cont_refl. now destruct s.
Qed.

(** [x != x] holds of NaN only. *)
Lemma float_ne_self (x : float) : Py.eq x x = false → Prim2SF x = S754_nan.
Proof.
  unfold Py.eq. rewrite FloatAxioms.eqb_spec. unfold SFeqb. intros Hx.
  destruct (SFcompare_refl (Prim2SF x)) as [|Heq]; [done|].
  now rewrite Heq in Hx.
Qed.

Lemma SFcompare_nan_r (a : spec_float) : SFcompare a S754_nan = None.
Proof. now destruct a. Qed.

(** Every ordering test against NaN is false. *)
Lemma float_nan_compare (x y : float) :
  Py.eq x x = false →
  Py.lt x y = false ∧ Py.gt x y = false ∧ Py.le x y = false ∧
  Py.le y x = false ∧ Py.eq x y = false.
Proof.
  intros Hx%float_ne_self. unfold Py.lt, Py.gt, Py.le, Py.eq.
  rewrite !ltb_spec, !leb_spec, FloatAxioms.eqb_spec.
  unfold SFltb, SFleb, SFeqb. rewrite Hx, SFcompare_nan_r. simpl. done.
Qed.

(** [a <= b] excludes [b < a]. *)
Lemma float_le_not_gt (a b : float) : Py.le a b = true → Py.gt a b = false.
Proof.
  unfold Py.gt. intros Hle.
  destruct (PrimFloat.ltb b a) eqn:E; [|done].
  apply float_lt_not_ge in E. congruence.
Qed.

(** ** Bounds that are not finite *)

Section NotFinite.
Context {L U : list float} {k : Z} {lists : BoundKind → list Z}.
Hypothesis H : classified L U k lists.
Variables (i : Z) (l u : float).
Hypothesis Hi : 0 ≤ i < k.
Hypothesis Hl : L !! Z.to_nat i = Some l.
Hypothesis Hu : U !! Z.to_nat i = Some u.

Lemma classified_lower_infinite :
  Py.gt l (-1e+20) = false →
  (i ∉ lists Equal) ∧ (i ∉ lists Range) ∧ (i ∉ lists Lower) ∧
  (i ∈ lists Upper ↔ Py.lt u 1e+20 = true) ∧
  (i ∈ lists Free ↔ Py.lt u 1e+20 = false).
Proof.
  intros Hgt. pose proof (λ c, classified_at H i l u c Hi Hl Hu) as Hc.
  rewrite !Hc. unfold bound_rule. rewrite Hgt. simpl.
  destruct (Py.lt u 1e+20); repeat split; congruence.
Qed.

Lemma classified_upper_infinite :
  Py.lt u 1e+20 = false →
  (i ∉ lists Equal) ∧ (i ∉ lists Range) ∧ (i ∉ lists Upper) ∧
  (i ∈ lists Lower ↔ Py.gt l (-1e+20) = true) ∧
  (i ∈ lists Free ↔ Py.gt l (-1e+20) = false).
Proof.
  intros Hlt. pose proof (λ c, classified_at H i l u c Hi Hl Hu) as Hc.
  rewrite !Hc. unfold bound_rule. rewrite Hlt, andb_false_r.
  destruct (Py.gt l (-1e+20)); repeat split; congruence.
Qed.
End NotFinite.

Lemma both_loops_of_classified (n m : Z) (self : NLPModel.t)
    (P : list float → list float → Z → (BoundKind → list Z) → Prop) :
  constructed n m self →
  (∀ L U k lists, classified L U k lists → P L U k lists) →
  both_loops n m self P.
Proof.
  intros Hpost HP. split.
  - exact (HP _ _ _ (λ c, constraints_of c self) (init_C _ _ _ Hpost)).
  - exact (HP _ _ _ (λ c, variables_of c self) (init_B _ _ _ Hpost)).
Qed.

(** A NaN bound is read as an absent bound: a constraint (a variable) whose
    lower bound is NaN is in none of the lists equal, range and lower, one
    whose upper bound is NaN in none of equal, range and upper, and one whose
    two bounds are NaN is free. *)
Theorem nan_bound_is_infinite (n m : Z) (name : string)
    (kwargs : gmap string (list float)) (self : NLPModel.t) :
  NLPModel.__init__ n m name kwargs = Ok self →
  both_loops n m self (λ L U k lists,
    ∀ i l u, 0 ≤ i < k → L !! Z.to_nat i = Some l → U !! Z.to_nat i = Some u →
      (Py.eq l l = false →
         (i ∉ lists Equal) ∧ (i ∉ lists Range) ∧ (i ∉ lists Lower)) ∧
      (Py.eq u u = false →
         (i ∉ lists Equal) ∧ (i ∉ lists Range) ∧ (i ∉ lists Upper)) ∧
      (Py.eq l l = false → Py.eq u u = false → i ∈ lists Free)).
Proof.
  intros Hpost%init_Ok. apply (both_loops_of_classified _ _ _ _ Hpost).
  intros L U k lists H i l u Hi Hl Hu.
  assert (Py.eq l l = false → Py.gt l (-1e+20) = false) as Hgt.
  { intros Hn. apply (float_nan_compare l (-1e+20) Hn). }
  assert (Py.eq u u = false → Py.lt u 1e+20 = false) as Hlt.
  { intros Hn. apply (float_nan_compare u 1e+20 Hn). }
  split; [|split].
  - intros Hn%Hgt.
    destruct (classified_lower_infinite H i l u Hi Hl Hu Hn); tauto.
  - intros Hn%Hlt.
    destruct (classified_upper_infinite H i l u Hi Hl Hu Hn); tauto.
  - intros Hn%Hgt Hn'%Hlt.
    now apply (classified_lower_infinite H i l u Hi Hl Hu Hn).
Qed.

Lemma nan_bound_is_infinite_witness :
  ∃ self, NLPModel.__init__ 1 3 "odd" odd_kwargs = Ok self ∧
    (0 ∉ NLPModel.equalC self) ∧ (0 ∉ NLPModel.rangeC self) ∧
    (0 ∉ NLPModel.lowerC self) ∧ 2 ∈ NLPModel.freeC self.
Proof.
  eexists. split; [reflexivity|].
  destruct (nan_bound_is_infinite 1 3 "odd" odd_kwargs _ eq_refl) as [HC _].
  destruct (HC 0 nan 3%float) as (H0 & _); [lia | reflexivity | reflexivity |].
  destruct (HC 2 nan nan) as (_ & _ & H2); [lia | reflexivity | reflexivity |].
  destruct (H0 eq_refl) as (? & ? & ?).
  repeat split; [done..|]. exact (H2 eq_refl eq_refl).
Defined.

(** A bound at or beyond its sentinel is read as an absent bound, the true
    infinities included: with [Lcon[i] <= -1e20] the index is in none of
    equal, range and lower; with [Ucon[i] >= 1e20] in none of equal, range
    and upper; with both it is free.  The same holds for the variables. *)
Theorem bound_beyond_sentinel_is_infinite (n m : Z) (name : string)
    (kwargs : gmap string (list float)) (self : NLPModel.t) :
  NLPModel.__init__ n m name kwargs = Ok self →
  both_loops n m self (λ L U k lists,
    ∀ i l u, 0 ≤ i < k → L !! Z.to_nat i = Some l → U !! Z.to_nat i = Some u →
      (Py.le l (-1e+20) = true →
         (i ∉ lists Equal) ∧ (i ∉ lists Range) ∧ (i ∉ lists Lower)) ∧
      (Py.le 1e+20 u = true →
         (i ∉ lists Equal) ∧ (i ∉ lists Range) ∧ (i ∉ lists Upper)) ∧
      (Py.le l (-1e+20) = true → Py.le 1e+20 u = true → i ∈ lists Free)).
Proof.
  intros Hpost%init_Ok. apply (both_loops_of_classified _ _ _ _ Hpost).
  intros L U k lists H i l u Hi Hl Hu.
  split; [|split].
  - intros Hn%float_le_not_gt.
    destruct (classified_lower_infinite H i l u Hi Hl Hu Hn); tauto.
  - intros Hn%float_le_not_gt.
    destruct (classified_upper_infinite H i l u Hi Hl Hu Hn); tauto.
  - intros Hn%float_le_not_gt Hn'%float_le_not_gt.
    now apply (classified_lower_infinite H i l u Hi Hl Hu Hn).
Qed.

Lemma bound_beyond_sentinel_is_infinite_witness :
  ∃ self, NLPModel.__init__ 1 3 "odd" odd_kwargs = Ok self ∧
    1 ∈ NLPModel.freeC self ∧
    (0 ∉ NLPModel.fixedB self) ∧ (0 ∉ NLPModel.rangeB self) ∧
    (0 ∉ NLPModel.lowerB self).
Proof.
  eexists. split; [reflexivity|].
  destruct (bound_beyond_sentinel_is_infinite 1 3 "odd" odd_kwargs _ eq_refl)
    as [HC HB].
  destruct (HC 1 neg_infinity infinity) as (_ & _ & H1);
    [lia | reflexivity | reflexivity |].
  destruct (HB 0 (-2e+20)%float 0%float) as (H0 & _);
    [lia | reflexivity | reflexivity |].
  split; [exact (H1 eq_refl eq_refl) | exact (H0 eq_refl)].
Defined.

(** ** Filters *)

Lemma filter_ext_in {A : Type} (P Q : A → Prop)
    `{∀ x, Decision (P x)} `{∀ x, Decision (Q x)} (l : list A) :
  (∀ x, x ∈ l → P x ↔ Q x) → filter P l = filter Q l.
Proof.
  induction l as [|x l IH]; intros Hext; [done|].
  rewrite !filter_cons.
  assert (P x ↔ Q x) as Hx by (apply Hext; left).
  rewrite IH by (intros y Hy; apply Hext; now right).
  destruct (decide (P x)), (decide (Q x)); tauto.
Qed.

Lemma filter_all {A : Type} (P : A → Prop) `{∀ x, Decision (P x)}
    (l : list A) :
  (∀ x, x ∈ l → P x) → filter P l = l.
Proof.
  induction l as [|x l IH]; intros Hall; [done|].
  rewrite filter_cons, decide_True by (apply Hall; left).
  f_equal. apply IH. intros y Hy. apply Hall. now right.
Qed.

Lemma filter_none {A : Type} (P : A → Prop) `{∀ x, Decision (P x)}
    (l : list A) :
  (∀ x, x ∈ l → ¬ P x) → filter P l = [].
Proof.
  induction l as [|x l IH]; intros Hall; [done|].
  rewrite filter_cons, decide_False by (apply Hall; left).
  apply IH. intros y Hy. apply Hall. now right.
Qed.

(** ** The loop on vectors that are too short *)




(** ** Which inputs the constructor accepts *)




(** What [__init__] assigns besides the classification. *)
Lemma init_lists (n m : Z) (name : string)
    (kwargs : gmap string (list float)) (self : NLPModel.t) :
  NLPModel.__init__ n m name kwargs = Ok self →
  NLPModel.lin self = [] ∧ NLPModel.nln self = Py.range m ∧
  NLPModel.net self = [] ∧
  NLPModel.nlin self = 0 ∧ NLPModel.nnln self = Py.len (Py.range m) ∧
  NLPModel.nnet self = 0 ∧
  (NLPModel.feval self = 0 ∧ NLPModel.geval self = 0 ∧
   NLPModel.Heval self = 0 ∧ NLPModel.Hprod self = 0 ∧
   NLPModel.ceval self = 0 ∧ NLPModel.Jeval self = 0 ∧
   NLPModel.Jprod self = 0) ∧
  (NLPModel.Infinity self = 1e+20%float ∧
   NLPModel.negInfinity self = (-1e+20)%float ∧
   NLPModel.name self = name).
Proof.
  unfold NLPModel.__init__.
  destruct (Py.get_or kwargs "x0" _) as [x0|]; simpl; [|discriminate].
  destruct (Py.get_or kwargs "pi0" _) as [pi0|]; simpl; [|discriminate].
  destruct (Py.get_or kwargs "Lvar" _) as [Lvar|]; simpl; [|discriminate].
  destruct (Py.get_or kwargs "Uvar" _) as [Uvar|]; simpl; [|discriminate].
  destruct (Py.get_or kwargs "Lcon" _) as [Lcon|]; simpl; [|discriminate].
  destruct (Py.get_or kwargs "Ucon" _) as [Ucon|]; simpl; [|discriminate].
  destruct (classify _ _ Lcon Ucon m) as [C|]; simpl; [|discriminate].
  destruct (classify _ _ Lvar Uvar n) as [B|]; simpl; [|discriminate].
  intros [= <-]. simpl. done.
Qed.



(** ** What the constructor stores *)

Lemma init_vectors (n m : Z) (name : string)
    (kwargs : gmap string (list float)) (self : NLPModel.t) :
  NLPModel.__init__ n m name kwargs = Ok self →
  Py.get_or kwargs "x0" (Py.numpy_zeros n) = Ok (NLPModel.x0 self) ∧
  Py.get_or kwargs "pi0" (Py.numpy_zeros m) = Ok (NLPModel.pi0 self) ∧
  Py.get_or kwargs "Lvar" (Py.scale (-1e+20) <$> Py.numpy_ones n)
    = Ok (NLPModel.Lvar self) ∧
  Py.get_or kwargs "Uvar" (Py.scale 1e+20 <$> Py.numpy_ones n)
    = Ok (NLPModel.Uvar self) ∧
  Py.get_or kwargs "Lcon" (Py.scale (-1e+20) <$> Py.numpy_ones m)
    = Ok (NLPModel.Lcon self) ∧
  Py.get_or kwargs "Ucon" (Py.scale 1e+20 <$> Py.numpy_ones m)
    = Ok (NLPModel.Ucon self).
Proof.
  unfold NLPModel.__init__.
  destruct (Py.get_or kwargs "x0" _) as [x0|]; simpl; [|discriminate].
  destruct (Py.get_or kwargs "pi0" _) as [pi0|]; simpl; [|discriminate].
  destruct (Py.get_or kwargs "Lvar" _) as [Lvar|]; simpl; [|discriminate].
  destruct (Py.get_or kwargs "Uvar" _) as [Uvar|]; simpl; [|discriminate].
  destruct (Py.get_or kwargs "Lcon" _) as [Lcon|]; simpl; [|discriminate].
  destruct (Py.get_or kwargs "Ucon" _) as [Ucon|]; simpl; [|discriminate].
  destruct (classify _ _ Lcon Ucon m) as [C|]; simpl; [|discriminate].
  destruct (classify _ _ Lvar Uvar n) as [B|]; simpl; [|discriminate].
  intros [= <-]. simpl. done.
Qed.

Lemma get_or_supplied (kwargs : gmap string (list float)) (key : string)
    (dflt : result (list float)) (v w : list float) :
  Py.get_or kwargs key dflt = Ok v → kwargs !! key = Some w → v = w.
Proof. unfold Py.get_or. intros Hv Hw. rewrite Hw in Hv. congruence. Qed.

Lemma get_or_zeros_default (kwargs : gmap string (list float)) (key : string)
    (k : Z) (v : list float) :
  Py.get_or kwargs key (Py.numpy_zeros k) = Ok v → kwargs !! key = None →
  0 ≤ k ∧ v = replicate (Z.to_nat k) 0%float.
Proof.
  intros Hv Hw.
  destruct (get_or_zeros_cases kwargs key k) as [(v' & Hv' & Hd)|(Hr & _)];
    [|congruence].
  rewrite Hw in Hd. destruct Hd as [[Hk _] ->]. split; [done|congruence].
Qed.

Lemma get_or_bound_default (kwargs : gmap string (list float)) (key : string)
    (a : float) (k : Z) (v : list float) :
  Py.get_or kwargs key (Py.scale a <$> Py.numpy_ones k) = Ok v →
  kwargs !! key = None →
  0 ≤ k ∧ v = replicate (Z.to_nat k) (a * 1)%float.
Proof.
  intros Hv Hw.
  destruct (get_or_bound_cases kwargs key a k) as [(v' & Hv' & Hd)|(Hr & _)];
    [|congruence].
  rewrite Hw in Hd. destruct Hd as [[Hk _] ->]. split; [done|congruence].
Qed.

(** A vector passed in [kwargs] is stored as it is, whatever its length:
    [x0] and [pi0] are never measured, and of the bound vectors only the
    entries below the dimension are read. *)
Theorem supplied_vectors_stored (n m : Z) (name : string)
    (kwargs : gmap string (list float)) (self : NLPModel.t) :
  NLPModel.__init__ n m name kwargs = Ok self →
  (∀ v, kwargs !! "x0" = Some v → NLPModel.x0 self = v) ∧
  (∀ v, kwargs !! "pi0" = Some v → NLPModel.pi0 self = v) ∧
  (∀ v, kwargs !! "Lvar" = Some v → NLPModel.Lvar self = v) ∧
  (∀ v, kwargs !! "Uvar" = Some v → NLPModel.Uvar self = v) ∧
  (∀ v, kwargs !! "Lcon" = Some v → NLPModel.Lcon self = v) ∧
  (∀ v, kwargs !! "Ucon" = Some v → NLPModel.Ucon self = v).
Proof.
  intros (H1 & H2 & H3 & H4 & H5 & H6)%init_vectors.
  repeat split; intros v Hv; eapply get_or_supplied; eauto.
Qed.

Lemma supplied_vectors_stored_witness :
  ∃ self, NLPModel.__init__ 0 0 "odd" lengths_kwargs = Ok self ∧
    NLPModel.x0 self = [1; 2; 3]%float ∧
    NLPModel.Lcon self = [4; 5]%float.
Proof.
  eexists. split; [reflexivity|].
  destruct (supplied_vectors_stored 0 0 "odd" lengths_kwargs _ eq_refl)
    as (Hx0 & _ & _ & _ & HLcon & _).
  split; [exact (Hx0 _ eq_refl) | exact (HLcon _ eq_refl)].
Defined.

(** A vector that is absent from [kwargs] gets its default, for every [n]
    and [m]: [n] (resp. [m]) zeros for [x0] (resp. [pi0]), [-1e20] throughout
    for the lower bounds and [1e20] throughout for the upper bounds; the
    dimension that sizes a default is then non-negative. *)
Theorem default_vectors (n m : Z) (name : string)
    (kwargs : gmap string (list float)) (self : NLPModel.t) :
  NLPModel.__init__ n m name kwargs = Ok self →
  (kwargs !! "x0" = None →
     0 ≤ n ∧ NLPModel.x0 self = replicate (Z.to_nat n) 0%float) ∧
  (kwargs !! "pi0" = None →
     0 ≤ m ∧ NLPModel.pi0 self = replicate (Z.to_nat m) 0%float) ∧
  (kwargs !! "Lvar" = None →
     0 ≤ n ∧ NLPModel.Lvar self = replicate (Z.to_nat n) (-1e+20)%float) ∧
  (kwargs !! "Uvar" = None →
     0 ≤ n ∧ NLPModel.Uvar self = replicate (Z.to_nat n) 1e+20%float) ∧
  (kwargs !! "Lcon" = None →
     0 ≤ m ∧ NLPModel.Lcon self = replicate (Z.to_nat m) (-1e+20)%float) ∧
  (kwargs !! "Ucon" = None →
     0 ≤ m ∧ NLPModel.Ucon self = replicate (Z.to_nat m) 1e+20%float).
Proof.
  intros (H1 & H2 & H3 & H4 & H5 & H6)%init_vectors.
  split; [exact (get_or_zeros_default _ _ _ _ H1)|].
  split; [exact (get_or_zeros_default _ _ _ _ H2)|].
  split; [exact (get_or_bound_default _ _ _ _ _ H3)|].
  split; [exact (get_or_bound_default _ _ _ _ _ H4)|].
  split; [exact (get_or_bound_default _ _ _ _ _ H5)|].
  exact (get_or_bound_default _ _ _ _ _ H6).
Qed.

Lemma default_vectors_witness :
  ∃ self, NLPModel.__init__ 2 6 "demo" demo_kwargs = Ok self ∧
    NLPModel.x0 self = [0; 0]%float ∧
    NLPModel.pi0 self = [0; 0; 0; 0; 0; 0]%float.
Proof.
  eexists. split; [reflexivity|].
  destruct (default_vectors 2 6 "demo" demo_kwargs _ eq_refl)
    as (Hx0 & Hpi0 & _).
  split; [exact (proj2 (Hx0 eq_refl)) | exact (proj2 (Hpi0 eq_refl))].
Defined.

(** A dimension that numpy refuses, for a vector that [kwargs] lacks. *)
Lemma init_refused (n m : Z) (name : string)
    (kwargs : gmap string (list float)) :
  ((kwargs !! "x0" = None ∨ kwargs !! "Lvar" = None
    ∨ kwargs !! "Uvar" = None) ∧ ¬ numpy_accepts n) ∨
  ((kwargs !! "pi0" = None ∨ kwargs !! "Lcon" = None
    ∨ kwargs !! "Ucon" = None) ∧ ¬ numpy_accepts m) →
  NLPModel.__init__ n m name kwargs = Raise ValueError.
Proof.
  intros Hno. unfold NLPModel.__init__.
  destruct (get_or_zeros_cases kwargs "x0" n)
    as [(x0 & -> & E1) | (-> & _)]; [simpl | reflexivity].
  destruct (get_or_zeros_cases kwargs "pi0" m)
    as [(pi0 & -> & E2) | (-> & _)]; [simpl | reflexivity].
  destruct (get_or_bound_cases kwargs "Lvar" (-1e+20) n)
    as [(Lvar & -> & E3) | (-> & _)]; [simpl | reflexivity].
  destruct (get_or_bound_cases kwargs "Uvar" 1e+20 n)
    as [(Uvar & -> & E4) | (-> & _)]; [simpl | reflexivity].
  destruct (get_or_bound_cases kwargs "Lcon" (-1e+20) m)
    as [(Lcon & -> & E5) | (-> & _)]; [simpl | reflexivity].
  destruct (get_or_bound_cases kwargs "Ucon" 1e+20 m)
    as [(Ucon & -> & E6) | (-> & _)]; [simpl | reflexivity].
  exfalso.
  destruct Hno as [[[Hk|[Hk|Hk]] Hno]|[[Hk|[Hk|Hk]] Hno]];
    rewrite Hk in *; tauto.
Qed.

(** A negative dimension is refused only where a default vector has to be
    built from it: [__init__] then raises [ValueError]. *)
Theorem negative_dimension_ValueError (n m : Z) (name : string)
    (kwargs : gmap string (list float)) :
  (n < 0 ∧ (kwargs !! "x0" = None ∨ kwargs !! "Lvar" = None
            ∨ kwargs !! "Uvar" = None)) ∨
  (m < 0 ∧ (kwargs !! "pi0" = None ∨ kwargs !! "Lcon" = None
            ∨ kwargs !! "Ucon" = None)) →
  NLPModel.__init__ n m name kwargs = Raise ValueError.
Proof.
  intros Hneg. apply init_refused. unfold numpy_accepts.
  destruct Hneg as [[Hn Hk]|[Hm Hk]]; [left|right]; (split; [exact Hk|lia]).
Qed.

Lemma negative_dimension_ValueError_witness :
  NLPModel.__init__ (-1) 2 "demo" demo_kwargs = Raise ValueError.
Proof.
  apply negative_dimension_ValueError.
  left. split; [lia|]. left. reflexivity.
Defined.

(** A dimension too large for numpy is refused where a default vector has
    to be built from it: if an array of [n] doubles exceeds the index type
    ([8 * n > 2**63 - 1]) and [x0], [Lvar] or [Uvar] is absent from
    [kwargs], or likewise for [m] with [pi0], [Lcon] or [Ucon], the
    constructor raises [ValueError]. *)
Theorem huge_dimension_ValueError (n m : Z) (name : string)
    (kwargs : gmap string (list float)) :
  (Py.NPY_MAX_INTP < Py.itemsize * n ∧
   (kwargs !! "x0" = None ∨ kwargs !! "Lvar" = None
    ∨ kwargs !! "Uvar" = None)) ∨
  (Py.NPY_MAX_INTP < Py.itemsize * m ∧
   (kwargs !! "pi0" = None ∨ kwargs !! "Lcon" = None
    ∨ kwargs !! "Ucon" = None)) →
  NLPModel.__init__ n m name kwargs = Raise ValueError.
Proof.
  intros Hbig. apply init_refused. unfold numpy_accepts.
  destruct Hbig as [[Hn Hk]|[Hm Hk]]; [left|right]; (split; [exact Hk|lia]).
Qed.

Lemma huge_dimension_ValueError_witness :
  NLPModel.__init__ 0 (2 ^ 63) "demo" lengths_kwargs = Raise ValueError.
Proof.
  apply huge_dimension_ValueError.
  right. split; [reflexivity|]. left. reflexivity.
Defined.

(** With a dimension that is zero or negative the loop over it has no
    iteration: the five lists are empty and the five counts zero, and for
    the variables [nbounds] is [n] itself, negative if [n] is. *)
Theorem empty_dimension (n m : Z) (name : string)
    (kwargs : gmap string (list float)) (self : NLPModel.t) :
  NLPModel.__init__ n m name kwargs = Ok self →
  (m ≤ 0 → (∀ c, constraints_of c self = []) ∧
     NLPModel.nequalC self = 0 ∧ NLPModel.nrangeC self = 0 ∧
     NLPModel.nlowerC self = 0 ∧ NLPModel.nupperC self = 0 ∧
     NLPModel.nfreeC self = 0 ∧
     NLPModel.nln self = [] ∧ NLPModel.nnln self = 0) ∧
  (n ≤ 0 → (∀ c, variables_of c self = []) ∧
     NLPModel.nfixedB self = 0 ∧ NLPModel.nrangeB self = 0 ∧
     NLPModel.nlowerB self = 0 ∧ NLPModel.nupperB self = 0 ∧
     NLPModel.nfreeB self = 0 ∧ NLPModel.nbounds self = n).
Proof.
  intros Hinit. pose proof (init_Ok _ _ _ _ _ Hinit) as Hpost.
  destruct (init_lists _ _ _ _ _ Hinit) as (_ & Hnln & _ & _ & Hnnln & _).
  split.
  - intros Hm.
    assert (∀ c, constraints_of c self = []) as Hnil.
    { intros c. rewrite (cl_lists _ _ _ _ (init_C _ _ _ Hpost) c).
      unfold Py.range. now rewrite seqZ_nil. }
    split; [exact Hnil|].
    rewrite (init_nequalC _ _ _ Hpost), (init_nrangeC _ _ _ Hpost),
      (init_nlowerC _ _ _ Hpost), (init_nupperC _ _ _ Hpost),
      (init_nfreeC _ _ _ Hpost), Hnnln, Hnln.
    rewrite (Hnil Equal : NLPModel.equalC self = []),
      (Hnil Range : NLPModel.rangeC self = []),
      (Hnil Lower : NLPModel.lowerC self = []),
      (Hnil Upper : NLPModel.upperC self = []),
      (Hnil Free : NLPModel.freeC self = []).
    unfold Py.range. rewrite seqZ_nil by done. done.
  - intros Hn.
    assert (∀ c, variables_of c self = []) as Hnil.
    { intros c. rewrite (cl_lists _ _ _ _ (init_B _ _ _ Hpost) c).
      unfold Py.range. now rewrite seqZ_nil. }
    split; [exact Hnil|].
    rewrite (init_nbounds _ _ _ Hpost).
    rewrite (init_nfixedB _ _ _ Hpost), (init_nrangeB _ _ _ Hpost),
      (init_nlowerB _ _ _ Hpost), (init_nupperB _ _ _ Hpost),
      (init_nfreeB _ _ _ Hpost).
    rewrite (Hnil Equal : NLPModel.fixedB self = []),
      (Hnil Range : NLPModel.rangeB self = []),
      (Hnil Lower : NLPModel.lowerB self = []),
      (Hnil Upper : NLPModel.upperB self = []),
      (Hnil Free : NLPModel.freeB self = []).
    repeat split; unfold Py.len; simpl; lia.
Qed.

Lemma empty_dimension_witness :
  ∃ self, NLPModel.__init__ 0 0 "odd" lengths_kwargs = Ok self ∧
    (∀ c, constraints_of c self = []) ∧ (∀ c, variables_of c self = []) ∧
    NLPModel.nbounds self = 0.
Proof.
  eexists. split; [reflexivity|].
  destruct (empty_dimension 0 0 "odd" lengths_kwargs _ eq_refl) as [HC HB].
  split; [exact (proj1 (HC ltac:(lia)))|].
  split; [exact (proj1 (HB ltac:(lia)))|].
  reflexivity.
Defined.

(** ** Sides without bounds *)

Section OneSided.
Context {L U : list float} {k : Z} {lists : BoundKind → list Z}.
Hypothesis H : classified L U k lists.

Lemma classified_never (c : BoundKind) :
  (∀ i l u, 0 ≤ i < k → L !! Z.to_nat i = Some l → U !! Z.to_nat i = Some u →
            bound_rule l u ≠ c) →
  lists c = [].
Proof.
  intros Hne. rewrite (cl_lists _ _ _ _ H). apply filter_none.
  intros i Hi%elem_of_seqZ. unfold kind_at.
  destruct (L !! Z.to_nat i) as [l|] eqn:El; simpl; [|done].
  destruct (U !! Z.to_nat i) as [u|] eqn:Eu; simpl; [|done].
  intros [= Hc]. apply (Hne i l u); [lia|done..].
Qed.

Lemma classified_always (c : BoundKind) :
  (∀ i l u, 0 ≤ i < k → L !! Z.to_nat i = Some l → U !! Z.to_nat i = Some u →
            bound_rule l u = c) →
  lists c = Py.range k.
Proof.
  intros Hall. rewrite (cl_lists _ _ _ _ H). apply filter_all.
  intros i Hi%elem_of_seqZ.
  destruct (classified_entries H i) as (l & u & Hl & Hu & _); [lia|].
  unfold kind_at. rewrite Hl, Hu. simpl. f_equal.
  apply (Hall i l u); [lia|done..].
Qed.

Lemma classified_no_upper :
  U = replicate (Z.to_nat k) 1e+20%float →
  lists Equal = [] ∧ lists Range = [] ∧ lists Upper = [].
Proof.
  intros HU.
  assert (∀ i l u, U !! Z.to_nat i = Some u →
            bound_rule l u = Lower ∨ bound_rule l u = Free) as Hrule.
  { intros i l u Hu. rewrite HU in Hu. apply lookup_replicate in Hu as [-> _].
    unfold bound_rule. destruct (Py.gt l (-1e+20)); simpl; auto. }
  repeat split; apply classified_never; intros i l u _ _ Hu;
    destruct (Hrule i l u Hu) as [-> | ->]; done.
Qed.

Lemma classified_no_lower :
  L = replicate (Z.to_nat k) (-1e+20)%float →
  lists Equal = [] ∧ lists Range = [] ∧ lists Lower = [].
Proof.
  intros HL.
  assert (∀ i l u, L !! Z.to_nat i = Some l →
            bound_rule l u = Upper ∨ bound_rule l u = Free) as Hrule.
  { intros i l u Hl. rewrite HL in Hl. apply lookup_replicate in Hl as [-> _].
    unfold bound_rule. destruct (Py.lt u 1e+20); simpl; auto. }
  repeat split; apply classified_never; intros i l u _ Hl _;
    destruct (Hrule i l u Hl) as [-> | ->]; done.
Qed.

Lemma classified_no_bounds :
  L = replicate (Z.to_nat k) (-1e+20)%float →
  U = replicate (Z.to_nat k) 1e+20%float →
  lists Free = Py.range k.
Proof.
  intros HL HU. apply classified_always. intros i l u _ Hl Hu.
  rewrite HL in Hl. apply lookup_replicate in Hl as [-> _].
  rewrite HU in Hu. apply lookup_replicate in Hu as [-> _].
  reflexivity.
Qed.
End OneSided.

(** If [kwargs] has no upper bounds for the constraints, no constraint is an
    equality, a range or an upper-bound constraint; without lower bounds none
    is an equality, a range or a lower-bound constraint.  The same holds for
    the variables with [Lvar] and [Uvar]. *)
Theorem absent_side_lists_empty (n m : Z) (name : string)
    (kwargs : gmap string (list float)) (self : NLPModel.t) :
  NLPModel.__init__ n m name kwargs = Ok self →
  (kwargs !! "Ucon" = None →
     NLPModel.equalC self = [] ∧ NLPModel.rangeC self = [] ∧
     NLPModel.upperC self = []) ∧
  (kwargs !! "Lcon" = None →
     NLPModel.equalC self = [] ∧ NLPModel.rangeC self = [] ∧
     NLPModel.lowerC self = []) ∧
  (kwargs !! "Uvar" = None →
     NLPModel.fixedB self = [] ∧ NLPModel.rangeB self = [] ∧
     NLPModel.upperB self = []) ∧
  (kwargs !! "Lvar" = None →
     NLPModel.fixedB self = [] ∧ NLPModel.rangeB self = [] ∧
     NLPModel.lowerB self = []).
Proof.
  intros Hinit. pose proof (init_Ok _ _ _ _ _ Hinit) as Hpost.
  destruct (default_vectors _ _ _ _ _ Hinit) as (_ & _ & HLv & HUv & HLc & HUc).
  split; [|split; [|split]].
  - intros [_ HU]%HUc. exact (classified_no_upper (init_C _ _ _ Hpost) HU).
  - intros [_ HL]%HLc. exact (classified_no_lower (init_C _ _ _ Hpost) HL).
  - intros [_ HU]%HUv. exact (classified_no_upper (init_B _ _ _ Hpost) HU).
  - intros [_ HL]%HLv. exact (classified_no_lower (init_B _ _ _ Hpost) HL).
Qed.

Lemma absent_side_lists_empty_witness :
  ∃ self, NLPModel.__init__ 1 2 "lower" lower_kwargs = Ok self ∧
    NLPModel.equalC self = [] ∧ NLPModel.rangeC self = [] ∧
    NLPModel.upperC self = [].
Proof.
  eexists. split; [reflexivity|].
  destruct (absent_side_lists_empty 1 2 "lower" lower_kwargs _ eq_refl)
    as [HU _].
  exact (HU eq_refl).
Defined.

(** Without bounds on the variables in [kwargs] every variable is free:
    [freeB] is [0, ..., n-1], [nfreeB] is [n] and [nbounds] is 0.  Without
    bounds on the constraints [freeC] is [0, ..., m-1] and [nfreeC] is [m]. *)
Theorem no_bounds_all_free (n m : Z) (name : string)
    (kwargs : gmap string (list float)) (self : NLPModel.t) :
  NLPModel.__init__ n m name kwargs = Ok self →
  (kwargs !! "Lvar" = None → kwargs !! "Uvar" = None →
     NLPModel.freeB self = Py.range n ∧ NLPModel.nfreeB self = n ∧
     NLPModel.nbounds self = 0) ∧
  (kwargs !! "Lcon" = None → kwargs !! "Ucon" = None →
     NLPModel.freeC self = Py.range m ∧ NLPModel.nfreeC self = m).
Proof.
  intros Hinit. pose proof (init_Ok _ _ _ _ _ Hinit) as Hpost.
  destruct (default_vectors _ _ _ _ _ Hinit) as (_ & _ & HLv & HUv & HLc & HUc).
  split.
  - intros [Hn HL]%HLv [_ HU]%HUv.
    pose proof (classified_no_bounds (init_B _ _ _ Hpost) HL HU) as Hfree.
    cbn [variables_of] in Hfree.
    rewrite (init_nbounds _ _ _ Hpost), (init_nfreeB _ _ _ Hpost), Hfree.
    unfold Py.len, Py.range. rewrite length_seqZ. repeat split; lia.
  - intros [Hm HL]%HLc [_ HU]%HUc.
    pose proof (classified_no_bounds (init_C _ _ _ Hpost) HL HU) as Hfree.
    cbn [constraints_of] in Hfree.
    rewrite (init_nfreeC _ _ _ Hpost), Hfree.
    unfold Py.len, Py.range. rewrite length_seqZ. repeat split; lia.
Qed.

Lemma no_bounds_all_free_witness :
  ∃ self, NLPModel.__init__ 1 2 "lower" lower_kwargs = Ok self ∧
    NLPModel.freeB self = [0] ∧ NLPModel.nfreeB self = 1 ∧
    NLPModel.nbounds self = 0.
Proof.
  eexists. split; [reflexivity|].
  destruct (no_bounds_all_free 1 2 "lower" lower_kwargs _ eq_refl) as [HB _].
  exact (HB eq_refl eq_refl).
Defined.

(** ** Counting the bounded variables *)

(** For [n >= 0], [nbounds] counts the variables that have a bound: it is
    [nfixedB + nrangeB + nlowerB + nupperB], and lies between 0 and [n]. *)
Theorem nbounds_counts_bounded (n m : Z) (name : string)
    (kwargs : gmap string (list float)) (self : NLPModel.t) :
  0 ≤ n →
  NLPModel.__init__ n m name kwargs = Ok self →
  NLPModel.nbounds self
  = NLPModel.nfixedB self + NLPModel.nrangeB self + NLPModel.nlowerB self
    + NLPModel.nupperB self ∧
  0 ≤ NLPModel.nbounds self ≤ n.
Proof.
  intros Hn Hpost%init_Ok.
  pose proof (classified_count (init_B _ _ _ Hpost)) as Hc.
  cbn [variables_of] in Hc.
  rewrite (init_nbounds _ _ _ Hpost), (init_nfixedB _ _ _ Hpost),
    (init_nrangeB _ _ _ Hpost), (init_nlowerB _ _ _ Hpost),
    (init_nupperB _ _ _ Hpost), (init_nfreeB _ _ _ Hpost).
  unfold Py.len in *. lia.
Qed.

Lemma nbounds_counts_bounded_witness :
  ∃ self, NLPModel.__init__ 2 6 "demo" demo_kwargs = Ok self ∧
    NLPModel.nbounds self
    = NLPModel.nfixedB self + NLPModel.nrangeB self + NLPModel.nlowerB self
      + NLPModel.nupperB self ∧
    0 ≤ NLPModel.nbounds self ≤ 2.
Proof.
  eexists. split; [reflexivity|].
  apply (nbounds_counts_bounded 2 6 "demo" demo_kwargs); [lia|reflexivity].
Defined.

(** ** Entries that are never read *)

(** Of the bound vectors only the entries below the dimension matter: two
    constructions with the same dimensions whose bound vectors agree on
    their first [m] (resp. [n]) entries build the same index lists. *)
Theorem entries_beyond_dimension_ignored (n m : Z) (name name' : string)
    (kwargs kwargs' : gmap string (list float)) (self self' : NLPModel.t) :
  NLPModel.__init__ n m name kwargs = Ok self →
  NLPModel.__init__ n m name' kwargs' = Ok self' →
  (take (Z.to_nat m) (NLPModel.Lcon self')
   = take (Z.to_nat m) (NLPModel.Lcon self) →
   take (Z.to_nat m) (NLPModel.Ucon self')
   = take (Z.to_nat m) (NLPModel.Ucon self) →
   ∀ c, constraints_of c self' = constraints_of c self) ∧
  (take (Z.to_nat n) (NLPModel.Lvar self')
   = take (Z.to_nat n) (NLPModel.Lvar self) →
   take (Z.to_nat n) (NLPModel.Uvar self')
   = take (Z.to_nat n) (NLPModel.Uvar self) →
   ∀ c, variables_of c self' = variables_of c self).
Proof.
  intros Hpost%init_Ok Hpost'%init_Ok.
  assert (∀ L U L' U' k lists lists',
    classified L U k lists → classified L' U' k lists' →
    take (Z.to_nat k) L' = take (Z.to_nat k) L →
    take (Z.to_nat k) U' = take (Z.to_nat k) U →
    ∀ c, lists' c = lists c) as Hgen.
  { intros L U L' U' k lists lists' H H' HL HU c.
    rewrite (cl_lists _ _ _ _ H), (cl_lists _ _ _ _ H').
    apply filter_ext_in. intros i Hi%elem_of_seqZ. unfold kind_at.
    rewrite <- (lookup_take_lt L' (Z.to_nat k)), <- (lookup_take_lt U' (Z.to_nat k)),
      <- (lookup_take_lt L (Z.to_nat k)), <- (lookup_take_lt U (Z.to_nat k))
      by lia.
    now rewrite HL, HU. }
  split.
  - exact (Hgen _ _ _ _ _ _ _ (init_C _ _ _ Hpost) (init_C _ _ _ Hpost')).
  - exact (Hgen _ _ _ _ _ _ _ (init_B _ _ _ Hpost) (init_B _ _ _ Hpost')).
Qed.

Lemma entries_beyond_dimension_ignored_witness :
  ∃ self self',
    NLPModel.__init__ 2 6 "demo" demo_kwargs = Ok self ∧
    NLPModel.__init__ 2 6 "longer" longer_kwargs = Ok self' ∧
    ∀ c, constraints_of c self' = constraints_of c self.
Proof.
  eexists. eexists. split; [reflexivity|]. split; [reflexivity|].
  apply (entries_beyond_dimension_ignored 2 6 "demo" "longer"
           demo_kwargs longer_kwargs _ _ eq_refl eq_refl); reflexivity.
Defined.

(** ** [ResetCounters] *)

(** On a model that [__init__] has just returned, [ResetCounters] changes
    nothing: the counters start at zero. *)
Theorem ResetCounters_fresh (n m : Z) (name : string)
    (kwargs : gmap string (list float)) (self : NLPModel.t) :
  NLPModel.__init__ n m name kwargs = Ok self →
  NLPModel.ResetCounters self = Ok (tt, self).
Proof.
  intros (_ & _ & _ & _ & _ & _ & Hcounters & _)%init_lists.
  destruct self. simpl in Hcounters.
  destruct Hcounters as (-> & -> & -> & -> & -> & -> & ->). reflexivity.
Qed.

Lemma ResetCounters_fresh_witness :
  ∃ self, NLPModel.__init__ 2 6 "demo" demo_kwargs = Ok self ∧
    NLPModel.ResetCounters self = Ok (tt, self).
Proof.
  eexists. split; [reflexivity|].
  apply (ResetCounters_fresh 2 6 "demo" demo_kwargs). reflexivity.
Defined.

(** [ResetCounters] is idempotent, and its result does not depend on the
    counters it finds: a second call returns the model of the first, and two
    models that differ in their counters only are reset to the same model. *)
Theorem ResetCounters_idempotent (self : NLPModel.t) (f g H Hp c J Jp : Z) :
  ∃ self', NLPModel.ResetCounters self = Ok (tt, self') ∧
    NLPModel.ResetCounters self' = Ok (tt, self') ∧
    NLPModel.ResetCounters (NLPModel.with_counters self f g H Hp c J Jp)
    = Ok (tt, self').
Proof.
  destruct self. vm_compute. eexists. split; [reflexivity|].
  split; reflexivity.
Qed.

(** ** [AtOptimality] with residuals that are not all numbers *)

Section Residuals.
Context (cls : NLPModel.Methods) (self : NLPModel.t) (x z : list float).
Context (d c p : option float).
Hypothesis Hres : @NLPModel.OptimalityResiduals cls self x z = (d, c, p).

Lemma AtOptimality_unfold (v : PyVersion) :
  NLPModel.AtOptimality cls v self x z
  = (b1 ← Py.le_obj v d (NLPModel.stop_d self);
     b ← (if b1 : bool then
            b2 ← Py.le_obj v c (NLPModel.stop_c self);
            if b2 : bool then Py.le_obj v p (NLPModel.stop_p self)
            else Ok false
          else Ok false);
     if b : bool then Ok true else Ok false).
Proof. unfold NLPModel.AtOptimality. now rewrite Hres. Qed.

(** Under Python 2 the call always returns a boolean, and a residual that is
    [None] passes its test: the result is [True] exactly when every residual
    that is a number is within its tolerance. *)
Theorem AtOptimality_Python2_None_passes :
  ∃ b : bool, NLPModel.AtOptimality cls Python2 self x z = Ok b ∧
    (b = true ↔
     (∀ r, d = Some r → Py.le r (NLPModel.stop_d self) = true) ∧
     (∀ r, c = Some r → Py.le r (NLPModel.stop_c self) = true) ∧
     (∀ r, p = Some r → Py.le r (NLPModel.stop_p self) = true)).
Proof.
  rewrite AtOptimality_unfold.
  destruct d as [rd|], c as [rc|], p as [rp|]; simpl;
    repeat match goal with
           | |- context [Py.le ?a ?b] => destruct (Py.le a b) eqn:?; simpl
           end;
    eexists; (split; [reflexivity|]);
    (split; [intros ?; repeat split; intros ? [= <-]; congruence
            | intros (H1 & H2 & H3);
              try reflexivity;
              first [ specialize (H1 _ eq_refl); congruence
                    | specialize (H2 _ eq_refl); congruence
                    | specialize (H3 _ eq_refl); congruence ]]).
Qed.

(** Under Python 3 the call raises [TypeError] exactly when a comparison
    reaches a residual that is [None]: the first one is [None], or it is
    within tolerance and the second is [None], or the first two are within
    tolerance and the third is [None].  It raises nothing else. *)
Theorem AtOptimality_Python3_TypeError :
  (NLPModel.AtOptimality cls Python3 self x z = Raise TypeError ↔
   d = None ∨
   (∃ rd, d = Some rd ∧ Py.le rd (NLPModel.stop_d self) = true ∧
      (c = None ∨
       (∃ rc, c = Some rc ∧ Py.le rc (NLPModel.stop_c self) = true ∧
          p = None)))) ∧
  (∀ e, NLPModel.AtOptimality cls Python3 self x z = Raise e → e = TypeError).
Proof.
  rewrite AtOptimality_unfold.
  destruct d as [rd|], c as [rc|], p as [rp|]; simpl;
    repeat match goal with
           | |- context [Py.le ?a ?b] => destruct (Py.le a b) eqn:?; simpl
           end;
    (split; [split; [try discriminate; intros _; eauto 10 | ]
            | intros e; try discriminate; now intros [= <-]]).
  all: try (intros _; reflexivity).
  all: intros [[=]|(rd' & [= <-] & Hd & [[=]|(rc' & [= <-] & Hc & [=])])];
    congruence.
Qed.

(** The tests are made in order and stop at the first that fails: a first
    residual over its tolerance gives [False] whatever the other two are,
    [None] included, and so does a second residual over its tolerance after
    a first one within; this holds under both language versions. *)
Theorem AtOptimality_stops_at_first_failure (v : PyVersion) :
  (∀ rd, d = Some rd → Py.le rd (NLPModel.stop_d self) = false →
     NLPModel.AtOptimality cls v self x z = Ok false) ∧
  (∀ rd rc, d = Some rd → Py.le rd (NLPModel.stop_d self) = true →
     c = Some rc → Py.le rc (NLPModel.stop_c self) = false →
     NLPModel.AtOptimality cls v self x z = Ok false).
Proof.
  rewrite AtOptimality_unfold. split.
  - intros rd -> Hd. simpl. now rewrite Hd.
  - intros rd rc -> Hd -> Hc. simpl. rewrite Hd. simpl. now rewrite Hc.
Qed.

(** A NaN never passes: if the three residuals are numbers and one of
    them, or one of the three tolerances, is NaN, the call returns [False]. *)
Theorem AtOptimality_NaN (v : PyVersion) (rd rc rp : float) :
  d = Some rd → c = Some rc → p = Some rp →
  Py.eq rd rd = false ∨ Py.eq rc rc = false ∨ Py.eq rp rp = false ∨
  Py.eq (NLPModel.stop_d self) (NLPModel.stop_d self) = false ∨
  Py.eq (NLPModel.stop_c self) (NLPModel.stop_c self) = false ∨
  Py.eq (NLPModel.stop_p self) (NLPModel.stop_p self) = false →
  NLPModel.AtOptimality cls v self x z = Ok false.
Proof.
  intros Hd Hc Hp Hnan. rewrite AtOptimality_unfold, Hd, Hc, Hp. simpl.
  assert (Py.le rd (NLPModel.stop_d self) = false
          ∨ Py.le rc (NLPModel.stop_c self) = false
          ∨ Py.le rp (NLPModel.stop_p self) = false) as Hle.
  { destruct Hnan as [Hn|[Hn|[Hn|[Hn|[Hn|Hn]]]]].
    - left. apply (float_nan_compare rd _ Hn).
    - right. left. apply (float_nan_compare rc _ Hn).
    - right. right. apply (float_nan_compare rp _ Hn).
    - left. apply (float_nan_compare _ rd Hn).
    - right. left. apply (float_nan_compare _ rc Hn).
    - right. right. apply (float_nan_compare _ rp Hn). }
  destruct (Py.le rd _), (Py.le rc _), (Py.le rp _); simpl; try reflexivity.
  destruct Hle as [?|[?|?]]; discriminate.
Qed.
End Residuals.

(** The model on which the goal calls [AtOptimality]. *)
Ltac with_model tac :=
  lazymatch goal with
  | |- NLPModel.AtOptimality _ _ ?s _ _ = _ => tac s
  end.

(** The sample subclasses on the model of the sample input. *)
Lemma AtOptimality_Python2_None_passes_witness :
  ∃ self, NLPModel.__init__ 2 6 "demo" demo_kwargs = Ok self ∧
    NLPModel.AtOptimality partial_methods Python2 self [] [] = Ok true.
Proof.
  eexists. split; [reflexivity|].
  with_model ltac:(fun s =>
    destruct (AtOptimality_Python2_None_passes partial_methods s [] []
                _ _ _ eq_refl) as (b & Hb & Hiff)).
  rewrite Hb. f_equal. apply Hiff.
  repeat split; intros r Hr;
    (discriminate Hr || (injection Hr as <-; reflexivity)).
Defined.

Lemma AtOptimality_Python3_TypeError_witness :
  ∃ self, NLPModel.__init__ 2 6 "demo" demo_kwargs = Ok self ∧
    NLPModel.AtOptimality partial_methods Python3 self [] [] = Raise TypeError.
Proof.
  eexists. split; [reflexivity|].
  with_model ltac:(fun s =>
    destruct (AtOptimality_Python3_TypeError partial_methods s [] []
                _ _ _ eq_refl) as [[_ Hraise] _]).
  apply Hraise. right. exists 0%float.
  split; [reflexivity|]. split; [reflexivity|]. left. reflexivity.
Defined.

Lemma AtOptimality_stops_at_first_failure_witness :
  ∃ self, NLPModel.__init__ 2 6 "demo" demo_kwargs = Ok self ∧
    NLPModel.AtOptimality failing_methods Python3 self [] [] = Ok false.
Proof.
  eexists. split; [reflexivity|].
  with_model ltac:(fun s =>
    destruct (AtOptimality_stops_at_first_failure failing_methods s [] []
                _ _ _ eq_refl Python3) as [Hfirst _]).
  apply (Hfirst 1%float); reflexivity.
Defined.

Lemma AtOptimality_NaN_witness :
  ∃ self, NLPModel.__init__ 2 6 "demo" demo_kwargs = Ok self ∧
    NLPModel.AtOptimality nan_methods Python3 self [] [] = Ok false.
Proof.
  eexists. split; [reflexivity|].
  with_model ltac:(fun s =>
    apply (AtOptimality_NaN nan_methods s [] [] _ _ _ eq_refl Python3
             0%float 0%float nan)); try reflexivity.
  right. right. left. reflexivity.
Defined.
